(** * The MCP client of the research-agent integration

    A shallow embedding of [src/tools/mcp_client.py]: the configuration
    record, the exception classes, the session object [MCPClient] with its
    two operations [discover_tools] and [call_tool], and the properties of
    the request/response life cycle that the specification states.

    The Python code is effectful in three ways that matter here: it sends
    HTTP requests, it mutates [self._available_tools], and it raises and
    catches exceptions.  All three are modelled by one small monad: a
    computation takes the current [World] (the session object and the log of
    requests put on the wire), and gives back either a returned value or a
    raised exception, with the new world.  A [logger.info] line has no
    effect of its own; the one of [call_tool] that prints the arguments is
    kept for the text it builds first, which Python refuses to build for an
    integer of too many digits.  The other ones print strings and values
    parsed from a reply, which [json] reads under the same limit, and are
    left out. *)

From Stdlib Require Import String Ascii ZArith NArith List Bool Lia DecimalString.
Import ListNotations.
Open Scope string_scope.
Open Scope Z_scope.

Set Warnings "-register-all".

(** ** JSON values as Python sees them

    [response.json()] yields dicts, lists, strings, numbers, booleans and
    [None].  A dict keeps the insertion order of its keys (it shows in
    [repr]), hence the association list; a lookup takes the first binding of
    a key.  The client does no arithmetic, so a float is carried by the text
    Python prints for it. *)

Inductive json :=
| JNull
| JBool (b : bool)
| JInt (n : Z)
| JFloat (shown : string)
| JStr (s : string)
| JArr (items : list json)
| JObj (fields : list (string * json)).

Fixpoint dict_get {V : Type} (k : string) (d : list (string * V)) : option V :=
  match d with
  | [] => None
  | (k', v) :: rest => if String.eqb k' k then Some v else dict_get k rest
  end.

(** [needle in hay] on two Python strings. *)
Fixpoint contains (needle hay : string) : bool :=
  prefix needle hay ||
  match hay with
  | EmptyString => false
  | String _ rest => contains needle rest
  end.

Fixpoint join (sep : string) (parts : list string) : string :=
  match parts with
  | [] => ""
  | [p] => p
  | p :: rest => p ++ sep ++ join sep rest
  end.

Definition decimal (z : Z) : string := NilZero.string_of_int (Z.to_int z).

(** *** [repr] and [str]

    CPython's [repr] of a string: single quotes, unless the text has a
    single quote and no double quote; the chosen quote and the backslash are
    escaped, tab, newline and carriage return get their letter, the other
    control characters become [\xNN].  This is [repr] on ASCII text.  Bytes
    above 127 are kept as they are, which is what CPython does for the
    printable characters beyond ASCII and not for the other ones (a
    no-break space is escaped); a statement that gives the text of a [repr]
    therefore takes its value in ASCII ([ascii_value] below). *)

Definition double_quote : ascii := "034"%char.
Definition single_quote : ascii := "039"%char.
Definition backslash : ascii := "092"%char.

Definition hex_digit (n : N) : ascii :=
  nth (N.to_nat n)
      ["0"; "1"; "2"; "3"; "4"; "5"; "6"; "7"; "8"; "9";
       "a"; "b"; "c"; "d"; "e"; "f"]%char "0"%char.

Definition escape_char (quote c : ascii) : string :=
  let n := N_of_ascii c in
  if Ascii.eqb c quote || Ascii.eqb c backslash then String backslash (String c "")
  else if Ascii.eqb c "009"%char then String backslash "t"
  else if Ascii.eqb c "010"%char then String backslash "n"
  else if Ascii.eqb c "013"%char then String backslash "r"
  else if (n <? 32)%N || (n =? 127)%N
       then String backslash (String "x" (String (hex_digit (n / 16)) (String (hex_digit (n mod 16)) "")))
  else String c "".

Fixpoint escape (quote : ascii) (s : string) : string :=
  match s with
  | EmptyString => ""
  | String c rest => escape_char quote c ++ escape quote rest
  end.

Definition repr_str (s : string) : string :=
  let quote :=
    if contains (String single_quote "") s && negb (contains (String double_quote "") s)
    then double_quote else single_quote in
  String quote (escape quote s ++ String quote "").

Fixpoint py_repr (v : json) : string :=
  match v with
  | JNull => "None"
  | JBool true => "True"
  | JBool false => "False"
  | JInt n => decimal n
  | JFloat shown => shown
  | JStr s => repr_str s
  | JArr items => "[" ++ join ", " (map py_repr items) ++ "]"
  | JObj fields =>
      "{" ++ join ", " (map (fun kv => let '(k, x) := kv in repr_str k ++ ": " ++ py_repr x) fields) ++ "}"
  end.

(** What an f-string puts in place of [{v}]. *)
Definition py_str (v : json) : string :=
  match v with
  | JStr s => s
  | _ => py_repr v
  end.

Definition type_name (v : json) : string :=
  match v with
  | JNull => "NoneType"
  | JBool _ => "bool"
  | JInt _ => "int"
  | JFloat _ => "float"
  | JStr _ => "str"
  | JArr _ => "list"
  | JObj _ => "dict"
  end.

(** Texts and values within ASCII. *)
Definition is_ascii (s : string) : bool :=
  forallb (fun c => (N_of_ascii c <? 128)%N) (list_ascii_of_string s).

Fixpoint ascii_value (v : json) : bool :=
  match v with
  | JStr s => is_ascii s
  | JArr items => forallb ascii_value items
  | JObj fields =>
      forallb (fun kv => let '(k, x) := kv in is_ascii k && ascii_value x) fields
  | _ => true
  end.

(** ** HTTP messages (httpx) *)

Record Request := {
  method : string;
  url : string;
  request_headers : list (string * string);
  json_body : json
}.

(** [response.json()] either parses the body or raises [JSONDecodeError]
    with the decoder's text. *)
Inductive body :=
| Json (data : json)
| NotJson (decoder_text : string).

(** [status_error_text] is the text httpx gives the [HTTPStatusError] that
    [raise_for_status] raises for this response. *)
Record Response := {
  status_code : Z;
  status_error_text : string;
  content : body
}.

(** ** Exceptions

    The three classes of the module, [httpx.HTTPStatusError] with the
    response it carries, the other subclasses of [Exception] that reach the
    handlers, and the classes that derive from [BaseException] only.
    [context] is Python's [__context__]: the exception being handled when
    this one was raised. *)

Inductive error_class :=
| ConnectError | ConnectTimeout | ReadTimeout
| JSONDecodeError | KeyError | TypeError | AttributeError | RuntimeError
| ValueError.

Inductive signal_class := CancelledError | KeyboardInterrupt | SystemExit.

Inductive exn :=
| HTTPStatusError (message : string) (response : Response)
| MCPClientError (message : string) (context : option exn)
| MCPAuthenticationError (message : string) (context : option exn)
| MCPServerError (message : string) (context : option exn)
| Error (cls : error_class) (message : string)
| Signal (cls : signal_class).

(** [str(e)] *)
Definition str (e : exn) : string :=
  match e with
  | HTTPStatusError m _ | MCPClientError m _ | MCPAuthenticationError m _
  | MCPServerError m _ | Error _ m => m
  | Signal _ => ""
  end.

(** [type(e).__name__] *)
Definition class_name (e : exn) : string :=
  match e with
  | HTTPStatusError _ _ => "HTTPStatusError"
  | MCPClientError _ _ => "MCPClientError"
  | MCPAuthenticationError _ _ => "MCPAuthenticationError"
  | MCPServerError _ _ => "MCPServerError"
  | Error ConnectError _ => "ConnectError"
  | Error ConnectTimeout _ => "ConnectTimeout"
  | Error ReadTimeout _ => "ReadTimeout"
  | Error JSONDecodeError _ => "JSONDecodeError"
  | Error KeyError _ => "KeyError"
  | Error TypeError _ => "TypeError"
  | Error AttributeError _ => "AttributeError"
  | Error RuntimeError _ => "RuntimeError"
  | Error ValueError _ => "ValueError"
  | Signal CancelledError => "CancelledError"
  | Signal KeyboardInterrupt => "KeyboardInterrupt"
  | Signal SystemExit => "SystemExit"
  end.

(** [isinstance(e, Exception)]: everything but the [BaseException]-only
    classes. *)
Definition isinstance_Exception (e : exn) : bool :=
  match e with
  | Signal _ => false
  | _ => true
  end.

(** [isinstance(e, MCPClientError)]: the base class and its two
    subclasses. *)
Definition isinstance_MCPClientError (e : exn) : bool :=
  match e with
  | MCPClientError _ _ | MCPAuthenticationError _ _ | MCPServerError _ _ => true
  | _ => false
  end.

(** ** The session object and the world around it *)

Record MCPClientConfig := {
  server_url : string;
  github_token : option string;
  timeout : Z;
  max_retries : Z
}.

(** The dataclass defaults: [github_token = None], [timeout = 30],
    [max_retries = 3]. *)
Definition default_config (server : string) : MCPClientConfig :=
  {| server_url := server; github_token := None; timeout := 30; max_retries := 3 |}.

Record AsyncClient := {
  client_timeout : Z;
  headers : list (string * string)
}.

Record MCPClient := {
  config : MCPClientConfig;
  client : AsyncClient;
  _available_tools : option (list json)
}.

(** What the far end does with a request, given everything sent before. *)
Inductive Reply :=
| Responds (r : Response)
| Fails (e : exn).

Definition Transport := list Request -> Request -> Reply.

Record World := {
  self : MCPClient;
  outbox : list Request
}.

Inductive outcome (A : Type) :=
| Return (a : A)
| Raise (e : exn).
Arguments Return {A} a.
Arguments Raise {A} e.

Definition M (A : Type) : Type := World -> outcome A * World.

Definition ret {A} (a : A) : M A := fun w => (Return a, w).

Definition raise {A} (e : exn) : M A := fun w => (Raise e, w).

Definition bind {A B} (c : M A) (k : A -> M B) : M B :=
  fun w =>
    match c w with
    | (Return a, w') => k a w'
    | (Raise e, w') => (Raise e, w')
    end.

Notation "x <- c ;; k" := (bind c (fun x => k))
  (at level 61, c at next level, right associativity).
Notation "c ;;; k" := (bind c (fun _ => k))
  (at level 61, right associativity).

(** [try: body except ...]: [handlers e] is the first clause that matches
    [e], if any.  An exception raised by a handler is not offered to the
    other clauses. *)
Definition try_except {A} (body : M A) (handlers : exn -> option (M A)) : M A :=
  fun w =>
    match body w with
    | (Return a, w') => (Return a, w')
    | (Raise e, w') =>
        match handlers e with
        | Some handler => handler w'
        | None => (Raise e, w')
        end
    end.

Definition get_self : M MCPClient := fun w => (Return (self w), w).

(** [self._available_tools = tools] *)
Definition set_available_tools (tools : list json) : M unit :=
  fun w =>
    (Return tt,
     {| self := {| config := config (self w);
                   client := client (self w);
                   _available_tools := Some tools |};
        outbox := outbox w |}).

(** Truthiness of an [Optional[str]]: [None] and the empty string are
    false. *)
Definition truthy (s : option string) : bool :=
  match s with
  | None => false
  | Some EmptyString => false
  | Some _ => true
  end.

Definition _get_headers (cfg : MCPClientConfig) : list (string * string) :=
  let headers := [("Content-Type", "application/json");
                  ("User-Agent", "Research-Agent-MCP-Client/1.0")] in
  if truthy (github_token cfg)
  then headers ++ [("Authorization",
                    "Bearer " ++ match github_token cfg with Some t => t | None => "" end)]
  else headers.

Definition __init__ (cfg : MCPClientConfig) : MCPClient :=
  {| config := cfg;
     client := {| client_timeout := timeout cfg; headers := _get_headers cfg |};
     _available_tools := None |}.

(** A freshly opened session: nothing has been sent. *)
Definition open (cfg : MCPClientConfig) : World :=
  {| self := __init__ cfg; outbox := [] |}.

(** httpx encodes the header values in ASCII when the client is made, so
    [MCPClient(cfg)] gives a session only for a token within ASCII and
    raises [UnicodeEncodeError] for another one.  [__init__] and [open] are
    the session of a configuration that can be opened. *)
Definition openable (cfg : MCPClientConfig) : bool :=
  forallb (fun kv => let '(_, value) := kv in is_ascii value) (_get_headers cfg).

(** ** The interpreter's operations on parsed values

    Each one returns or raises what CPython does for the value's type; the
    texts are CPython's. *)

(** [key in v] *)
Definition py_in (key : string) (v : json) : M bool :=
  match v with
  | JObj d => ret (match dict_get key d with Some _ => true | None => false end)
  | JArr items =>
      ret (existsb (fun x => match x with JStr s => String.eqb s key | _ => false end) items)
  | JStr s => ret (contains key s)
  | _ => raise (Error TypeError ("argument of type '" ++ type_name v ++ "' is not iterable"))
  end.

(** [v[key]], the key a string *)
Definition py_getitem (v : json) (key : string) : M json :=
  match v with
  | JObj d =>
      match dict_get key d with
      | Some x => ret x
      | None => raise (Error KeyError (repr_str key))
      end
  | JArr _ => raise (Error TypeError "list indices must be integers or slices, not str")
  | JStr _ => raise (Error TypeError "string indices must be integers, not 'str'")
  | _ => raise (Error TypeError ("'" ++ type_name v ++ "' object is not subscriptable"))
  end.

(** [v.get(key, default)] *)
Definition py_get (v : json) (key : string) (default : json) : M json :=
  match v with
  | JObj d => ret (match dict_get key d with Some x => x | None => default end)
  | _ => raise (Error AttributeError ("'" ++ type_name v ++ "' object has no attribute 'get'"))
  end.

(** The values [for x in v] goes through: the items of a list, the keys of
    a dict, the characters of a string (every one of them a string again,
    on which [tool["name"]] raises the same [TypeError]). *)
Definition py_iter (v : json) : M (list json) :=
  match v with
  | JArr items => ret items
  | JObj d => ret (map (fun kv => JStr (fst kv)) d)
  | JStr s => ret (map (fun c => JStr (String c "")) (list_ascii_of_string s))
  | _ => raise (Error TypeError ("'" ++ type_name v ++ "' object is not iterable"))
  end.

(** [[f(x) for x in xs]]: left to right, the first exception ends it. *)
Fixpoint comprehension {A B} (f : A -> M B) (xs : list A) : M (list B) :=
  match xs with
  | [] => ret []
  | x :: rest =>
      y <- f x ;;
      ys <- comprehension f rest ;;
      ret (y :: ys)
  end.

(** ** httpx

    [raise_for_status] returns for the 2xx statuses and raises
    [HTTPStatusError], with the response in it, for every other one. *)

Definition is_success (r : Response) : bool :=
  (200 <=? status_code r) && (status_code r <=? 299).

Definition raise_for_status (r : Response) : M unit :=
  if is_success r then ret tt else raise (HTTPStatusError (status_error_text r) r).

Definition response_json (r : Response) : M json :=
  match content r with
  | Json data => ret data
  | NotJson decoder_text => raise (Error JSONDecodeError decoder_text)
  end.

(** [await self.client.post(url, json=payload)]: the request goes out with
    the client's headers and is logged, whatever comes back. *)
Definition post (net : Transport) (target : string) (payload : json) : M Response :=
  fun w =>
    let request := {| method := "POST";
                      url := target;
                      request_headers := headers (client (self w));
                      json_body := payload |} in
    (match net (outbox w) request with
     | Responds r => Return r
     | Fails e => Raise e
     end,
     {| self := self w; outbox := outbox w ++ [request] |}).

(** ** The two operations *)

Definition tools_list_request : json :=
  JObj [("jsonrpc", JStr "2.0"); ("id", JInt 1);
        ("method", JStr "tools/list"); ("params", JObj [])].

Definition discover_tools (net : Transport) : M (list json) :=
  try_except
    (this <- get_self ;;
     response <- post net (server_url (config this) ++ "/tools/list") tools_list_request ;;
     raise_for_status response ;;;
     data <- response_json response ;;
     has_error <- py_in "error" data ;;
     if has_error : bool then
       err <- py_getitem data "error" ;;
       raise (MCPServerError ("Tool discovery failed: " ++ py_str err) None)
     else
       result <- py_get data "result" (JObj []) ;;
       tools <- py_get result "tools" (JArr []) ;;
       items <- py_iter tools ;;
       names <- comprehension (fun tool => py_getitem tool "name") items ;;
       set_available_tools names ;;;
       ret names)
    (fun e =>
       match e with
       | HTTPStatusError _ response =>
           Some (if status_code response =? 401
                 then raise (MCPAuthenticationError
                               "GitHub authentication required for MCP server" (Some e))
                 else raise (MCPClientError
                               ("HTTP error during tool discovery: " ++ str e) (Some e)))
       | _ =>
           if isinstance_Exception e
           then Some (raise (MCPClientError ("Failed to discover tools: " ++ str e) (Some e)))
           else None
       end).

(** *** The text of a value in an f-string

    CPython turns no integer of more than [max_str_digits] decimal digits
    into text (4300 is its default): [str] and [repr] raise [ValueError] on
    it, also when it sits inside a list or a dict.  Nothing else in a value
    of this kind stands in the way. *)

Definition max_str_digits : nat := 4300.

Definition int_digits (n : Z) : nat := String.length (decimal (Z.abs n)).

Fixpoint printable (v : json) : bool :=
  match v with
  | JInt n => (int_digits n <=? max_str_digits)%nat
  | JArr items => forallb printable items
  | JObj fields => forallb (fun kv => let '(_, x) := kv in printable x) fields
  | _ => true
  end.

Definition int_limit_text : string :=
  "Exceeds the limit (4300 digits) for integer string conversion; use sys.set_int_max_str_digits() to increase the limit".

(** [f"...{v}..."]: the text of [v], or the [ValueError]. *)
Definition py_format (v : json) : M string :=
  if printable v then ret (py_str v) else raise (Error ValueError int_limit_text).

Definition tools_call_request (tool_name : string) (arguments : list (string * json)) : json :=
  JObj [("jsonrpc", JStr "2.0"); ("id", JInt 1);
        ("method", JStr "tools/call");
        ("params", JObj [("name", JStr tool_name); ("arguments", JObj arguments)])].

Definition call_tool (net : Transport) (tool_name : string)
    (arguments : list (string * json)) : M json :=
  try_except
    (let request_data := tools_call_request tool_name arguments in
     py_format (JObj arguments) ;;;
     this <- get_self ;;
     response <- post net (server_url (config this) ++ "/tools/call") request_data ;;
     raise_for_status response ;;;
     data <- response_json response ;;
     has_error <- py_in "error" data ;;
     if has_error : bool then
       err <- py_getitem data "error" ;;
       error_msg <- py_get err "message" (JStr "Unknown MCP error") ;;
       raise (MCPServerError ("Tool '" ++ tool_name ++ "' failed: " ++ py_str error_msg) None)
     else
       result <- py_get data "result" (JObj []) ;;
       ret result)
    (fun e =>
       match e with
       | HTTPStatusError _ response =>
           Some (if status_code response =? 401
                 then raise (MCPAuthenticationError
                               ("Authentication failed for tool '" ++ tool_name ++ "'") (Some e))
                 else if status_code response =? 404
                 then raise (MCPClientError
                               ("Tool '" ++ tool_name ++ "' not found on server") (Some e))
                 else raise (MCPClientError
                               ("HTTP error calling tool '" ++ tool_name ++ "': " ++ str e)
                               (Some e)))
       | _ =>
           if isinstance_Exception e
           then Some (raise (MCPClientError
                               ("Failed to call tool '" ++ tool_name ++ "': " ++ str e) (Some e)))
           else None
       end).

(** ** A session's life: a sequence of calls on one session object

    The caller may catch what a call raises and go on; either way the next
    call starts from the world the previous one left. *)

Inductive call :=
| Discover
| Invoke (tool_name : string) (arguments : list (string * json)).

Definition perform (net : Transport) (c : call) (w : World) : World :=
  match c with
  | Discover => snd (discover_tools net w)
  | Invoke tool_name arguments => snd (call_tool net tool_name arguments w)
  end.

Definition lifetime (net : Transport) (calls : list call) (w : World) : World :=
  fold_left (fun w c => perform net c w) calls w.

(** ** Small servers to run the code against *)

Definition ok_response (data : json) : Response :=
  {| status_code := 200; status_error_text := ""; content := Json data |}.

Definition status_response (code : Z) (text : string) : Response :=
  {| status_code := code; status_error_text := text; content := NotJson "Expecting value: line 1 column 1 (char 0)" |}.

Definition always (r : Response) : Transport := fun _ _ => Responds r.


(** A server that answers discovery one way and invocation another. *)
Definition routes (for_list for_call : Reply) : Transport :=
  fun _ request =>
    match json_body request with
    | JObj fields =>
        match dict_get "method" fields with
        | Some (JStr "tools/list") => for_list
        | _ => for_call
        end
    | _ => for_call
    end.

Definition test_config : MCPClientConfig :=
  {| server_url := "http://localhost:8787/mcp";
     github_token := Some "test_token";
     timeout := 30;
     max_retries := 3 |}.

(** ** The convenience functions of the module

    Each one builds the argument dict of one tool and calls [call_tool] on
    the session at hand.  An optional argument is a Python value that may be
    [None]; [if x:] tests its truthiness, [if x is not None:] its
    presence. *)

(** [d[k] = v]: the value of an existing key is replaced where it stands, a
    new key goes to the end. *)
Fixpoint dict_set {V : Type} (k : string) (v : V) (d : list (string * V)) : list (string * V) :=
  match d with
  | [] => [(k, v)]
  | (k', v') :: rest =>
      if String.eqb k' k then (k', v) :: rest else (k', v') :: dict_set k v rest
  end.

Definition optional_str (s : option string) : json :=
  match s with
  | Some text => JStr text
  | None => JNull
  end.

Definition optional_int (n : option Z) : json :=
  match n with
  | Some z => JInt z
  | None => JNull
  end.

Definition optional_strs (l : option (list string)) : json :=
  match l with
  | Some items => JArr (map JStr items)
  | None => JNull
  end.

(** Truthiness of an [Optional[List[str]]]: [None] and the empty list are
    false. *)
Definition truthy_list (l : option (list string)) : bool :=
  match l with
  | Some (_ :: _) => true
  | _ => false
  end.

Definition is_not_None {A : Type} (x : option A) : bool :=
  match x with
  | Some _ => true
  | None => false
  end.

Definition parse_prp_via_mcp (net : Transport) (prp_content : string)
    (project_name project_context : option string) : M json :=
  let arguments := [("prpContent", JStr prp_content)] in
  let arguments :=
    if truthy project_name
    then dict_set "projectName" (optional_str project_name) arguments else arguments in
  let arguments :=
    if truthy project_context
    then dict_set "projectContext" (optional_str project_context) arguments else arguments in
  call_tool net "parsePRP" arguments.

(** [priority] defaults to ["medium"] when the caller leaves it out. *)
Definition create_task_via_mcp (net : Transport) (title description project_name priority : string)
    (estimated_hours : option Z) (assigned_to : option string)
    (tags : option (list string)) : M json :=
  let arguments := [("title", JStr title);
                    ("description", JStr description);
                    ("projectName", JStr project_name);
                    ("priority", JStr priority)] in
  let arguments :=
    if is_not_None estimated_hours
    then dict_set "estimatedHours" (optional_int estimated_hours) arguments else arguments in
  let arguments :=
    if truthy assigned_to
    then dict_set "assignedTo" (optional_str assigned_to) arguments else arguments in
  let arguments :=
    if truthy_list tags
    then dict_set "tags" (optional_strs tags) arguments else arguments in
  call_tool net "createTask" arguments.

(** [importance] defaults to ["medium"] when the caller leaves it out. *)
Definition create_documentation_via_mcp (net : Transport)
    (title content doc_type project_name importance : string)
    (tags : option (list string)) : M json :=
  let arguments := [("title", JStr title);
                    ("content", JStr content);
                    ("type", JStr doc_type);
                    ("projectName", JStr project_name);
                    ("importance", JStr importance)] in
  let arguments :=
    if truthy_list tags
    then dict_set "tags" (optional_strs tags) arguments else arguments in
  call_tool net "createDocumentation" arguments.

(** [limit] defaults to 50 when the caller leaves it out. *)
Definition list_tasks_via_mcp (net : Transport)
    (project_name status assigned_to : option string) (limit : Z) : M json :=
  let arguments := [("limit", JInt limit)] in
  let arguments :=
    if truthy project_name
    then dict_set "projectName" (optional_str project_name) arguments else arguments in
  let arguments :=
    if truthy status
    then dict_set "status" (optional_str status) arguments else arguments in
  let arguments :=
    if truthy assigned_to
    then dict_set "assignedTo" (optional_str assigned_to) arguments else arguments in
  call_tool net "listTasks" arguments.

(** The placeholder that stands in for the documentation listing. *)
Definition documentation_not_available : json :=
  JObj [("content", JArr [JObj [("text", JStr "Documentation listing not available")]])].

Definition get_project_status_via_mcp (net : Transport) (project_name : string) : M json :=
  try_except
    (tasks_result <- list_tasks_via_mcp net (Some project_name) None None 50 ;;
     docs_result <-
       try_except
         (call_tool net "listDocumentation" [("projectName", JStr project_name)])
         (fun e =>
            if isinstance_MCPClientError e
            then Some (ret documentation_not_available)
            else None) ;;
     ret (JObj [("project_name", JStr project_name);
                ("tasks", tasks_result);
                ("documentation", docs_result);
                ("status", JStr "active")]))
    (fun e =>
       if isinstance_Exception e
       then Some (raise (MCPClientError
                           ("Failed to get project status for '" ++ project_name ++ "': "
                            ++ str e) (Some e)))
       else None).

(** ** The session as a context manager

    [close] awaits [self.client.aclose()], which releases the connections
    of the httpx client; the world keeps no record of them.  [__aenter__]
    gives the session itself, [__aexit__] closes it and lets an exception of
    the block pass.  [async with MCPClient(cfg) as c: block] so runs
    [block] on a new session and closes it on the way out, returned or
    raised.  The session is made by [__init__], so the block stands for a
    configuration that can be opened ([openable]). *)

Definition close : M unit := ret tt.

Definition __aexit__ : M unit := close.

Definition async_with_MCPClient {A} (cfg : MCPClientConfig) (block : M A) : M A :=
  fun w =>
    match block {| self := __init__ cfg; outbox := outbox w |} with
    | (result, w') => (result, snd (__aexit__ w'))
    end.

(** ** The agent's tool [get_project_status] ([src/agents/research_agent.py]) *)

Record ResearchAgentDependencies := {
  brave_api_key : string;
  anthropic_api_key : string;
  mcp_server_url : string;
  deps_github_token : option string;
  session_id : option string
}.

(** [MCPClientConfig(server_url=..., github_token=...)]: the other fields
    take their defaults. *)
Definition mcp_config_of (deps : ResearchAgentDependencies) : MCPClientConfig :=
  {| server_url := mcp_server_url deps;
     github_token := deps_github_token deps;
     timeout := 30;
     max_retries := 3 |}.

Definition get_project_status (net : Transport) (deps : ResearchAgentDependencies)
    (project_name : string) : M json :=
  try_except
    (let mcp_config := mcp_config_of deps in
     async_with_MCPClient mcp_config
       (tasks_result <- call_tool net "listTasks" [("projectName", JStr project_name)] ;;
        docs_result <-
          try_except
            (call_tool net "listDocumentation" [("projectName", JStr project_name)])
            (fun _ => Some (ret documentation_not_available)) ;;
        ret (JObj [("project_name", JStr project_name);
                   ("tasks", tasks_result);
                   ("documentation", docs_result);
                   ("status", JStr "active")])))
    (fun e =>
       if isinstance_MCPClientError e
       then Some (ret (JObj [("project_name", JStr project_name);
                             ("error", JStr (str e));
                             ("status", JStr "error")]))
       else None).

(** ** The agent's tool [parse_prp_and_create_project]

    First the text functions it leans on.  [strip] and [py_int] are
    Python's on ASCII text: the whitespace and the digits that Python knows
    beyond ASCII are not in them, and a statement that gives a number read
    from a text takes the text in ASCII ([is_ascii]). *)

Definition newline : ascii := "010"%char.
Definition colon : ascii := ":"%char.

(** [s.split(sep)] for a separator of one character: the pieces between
    the separators, empty ones included; never the empty list. *)
Fixpoint split_on (sep : ascii) (s : string) : list string :=
  match s with
  | EmptyString => [""]
  | String c rest =>
      if Ascii.eqb c sep then "" :: split_on sep rest
      else match split_on sep rest with
           | [] => [String c ""]
           | piece :: pieces => String c piece :: pieces
           end
  end.

(** The characters [str.strip()] removes: tab to carriage return, the four
    separators 28 to 31, and the space. *)
Definition is_space (c : ascii) : bool :=
  let n := N_of_ascii c in
  ((9 <=? n) && (n <=? 13) || (28 <=? n) && (n <=? 31) || (n =? 32))%N.

Fixpoint lstrip (s : string) : string :=
  match s with
  | EmptyString => ""
  | String c rest => if is_space c then lstrip rest else s
  end.

Fixpoint rstrip (s : string) : string :=
  match s with
  | EmptyString => ""
  | String c rest =>
      match rstrip rest with
      | EmptyString => if is_space c then "" else String c ""
      | kept => String c kept
      end
  end.

Definition strip (s : string) : string := rstrip (lstrip s).

Definition digit_of (c : ascii) : option Z :=
  let n := N_of_ascii c in
  if ((48 <=? n) && (n <=? 57))%N then Some (Z.of_N n - 48) else None.

(** The digits of a decimal literal, most significant first; an underscore
    may stand between two digits.  [after_digit] tells whether the
    character before was a digit; [count] is the number of digits read. *)
Fixpoint read_digits (value : Z) (count : nat) (after_digit : bool) (s : string)
  : option (Z * nat) :=
  match s with
  | EmptyString => if after_digit then Some (value, count) else None
  | String c rest =>
      match digit_of c with
      | Some d => read_digits (10 * value + d) (S count) true rest
      | None =>
          if Ascii.eqb c "_"%char && after_digit
          then read_digits value count false rest
          else None
      end
  end.

(** [int(s)] on a stripped ASCII text: an optional sign and the digits,
    no more of them than [max_str_digits]; [None] stands for the
    [ValueError]. *)
Definition py_int (s : string) : option Z :=
  let '(negative, digits) :=
    match s with
    | String "-"%char rest => (true, rest)
    | String "+"%char rest => (false, rest)
    | _ => (false, s)
    end in
  match read_digits 0 0 false digits with
  | Some (value, count) =>
      if (count <=? max_str_digits)%nat
      then Some (if negative then - value else value)
      else None
  | None => None
  end.

(** The three counters of [_extract_project_data_from_mcp_response]. *)
Record counters := {
  tasks_created : Z;
  documentation_created : Z;
  estimated_hours : Z
}.

(** [try: x = int(line.split(':')[-1].strip()) except: pass]: the new
    value of [x], which is the old one when the text is no integer. *)
Definition read_number (line : string) (x : Z) : Z :=
  match py_int (strip (last (split_on colon line) "")) with
  | Some n => n
  | None => x
  end.

(** One turn of the loop over the lines. *)
Definition scan_line (found : counters) (line : string) : counters :=
  if contains "Total Tasks Extracted:" line then
    {| tasks_created := read_number line (tasks_created found);
       documentation_created := documentation_created found;
       estimated_hours := estimated_hours found |}
  else if contains "Documentation Sections:" line then
    {| tasks_created := tasks_created found;
       documentation_created := read_number line (documentation_created found);
       estimated_hours := estimated_hours found |}
  else if contains "Estimated Total Hours:" line then
    {| tasks_created := tasks_created found;
       documentation_created := documentation_created found;
       estimated_hours := read_number line (estimated_hours found) |}
  else found.

Definition scan_text (text : string) : counters :=
  fold_left scan_line (split_on newline text)
    {| tasks_created := 0; documentation_created := 0; estimated_hours := 0 |}.

Definition project_data (found : counters) : list (string * json) :=
  [("tasks_created", JInt (tasks_created found));
   ("documentation_created", JInt (documentation_created found));
   ("estimated_hours", JInt (estimated_hours found))].

(** The function is handed whatever stood under [text]; on anything but a
    string [response_text.split] raises [AttributeError]. *)
Definition _extract_project_data_from_mcp_response (response_text : json)
  : M (list (string * json)) :=
  match response_text with
  | JStr text => ret (project_data (scan_text text))
  | _ => raise (Error AttributeError
                  ("'" ++ type_name response_text ++ "' object has no attribute 'split'"))
  end.

(** Truthiness of a parsed value. *)
Definition py_truthy (v : json) : bool :=
  match v with
  | JNull => false
  | JBool b => b
  | JInt n => negb (n =? 0)
  | JFloat shown => negb (String.eqb shown "0.0" || String.eqb shown "-0.0")
  | JStr s => negb (String.eqb s "")
  | JArr items => match items with [] => false | _ => true end
  | JObj fields => match fields with [] => false | _ => true end
  end.

(** [v[0]] for a [v] that passed [if v:]; [None] when [v] is false and the
    [else] branch is taken.  The empty list and the empty string, on which
    [v[0]] would raise [IndexError], are false, so that error does not come
    up.  A dict has no key [0] here, its keys being strings. *)
Definition first_if_truthy (v : json) : option (M json) :=
  if py_truthy v then
    Some match v with
         | JArr (item :: _) => ret item
         | JStr (String c _) => ret (JStr (String c ""))
         | JObj _ => raise (Error KeyError "0")
         | _ => raise (Error TypeError ("'" ++ type_name v ++ "' object is not subscriptable"))
         end
  else None.

Definition no_content : json :=
  JObj [("success", JBool false);
        ("error", JStr "Failed to parse PRP - no content returned from MCP server")].

Definition parse_prp_and_create_project (net : Transport) (deps : ResearchAgentDependencies)
    (prp_content project_name : string) : M json :=
  try_except
    (let mcp_config := mcp_config_of deps in
     async_with_MCPClient mcp_config
       (parse_result <- parse_prp_via_mcp net prp_content (Some project_name) None ;;
        has_content <- py_in "content" parse_result ;;
        content <- (if has_content : bool
                    then py_getitem parse_result "content"
                    else ret (JBool false)) ;;
        match first_if_truthy content with
        | Some first =>
            entry <- first ;;
            content_text <- py_get entry "text" (JStr "") ;;
            project_data <- _extract_project_data_from_mcp_response content_text ;;
            ret (JObj ([("success", JBool true);
                        ("project_name", JStr project_name);
                        ("parse_result", parse_result)] ++ project_data)%list)
        | None => ret no_content
        end))
    (fun e =>
       if isinstance_MCPClientError e
       then Some (ret (JObj [("success", JBool false);
                             ("error", JStr ("MCP client error: " ++ str e))]))
       else if isinstance_Exception e
       then Some (ret (JObj [("success", JBool false);
                             ("error", JStr ("Unexpected error: " ++ str e))]))
       else None).

(** Whether the character [c] occurs in [s]. *)
Fixpoint has_char (c : ascii) (s : string) : bool :=
  match s with
  | EmptyString => false
  | String d rest => Ascii.eqb d c || has_char c rest
  end.

(** The arguments with which [parse_prp_and_create_project] has the PRP
    parsed. *)
Definition parse_arguments (prp_content project_name : string) : list (string * json) :=
  match project_name with
  | EmptyString => [("prpContent", JStr prp_content)]
  | _ => [("prpContent", JStr prp_content); ("projectName", JStr project_name)]
  end.

(** What [parse_prp_and_create_project] may return: a dict that says
    [success] and names the project, or one that says no [success] and
    gives an [error] text. *)
Definition is_report (project_name : string) (v : json) : Prop :=
  exists fields,
    v = JObj fields /\
    (dict_get "success" fields = Some (JBool true) /\
     dict_get "project_name" fields = Some (JStr project_name) \/
     dict_get "success" fields = Some (JBool false) /\
     exists text, dict_get "error" fields = Some (JStr text)).

(** The dict of a parsed project. *)
Definition project_created (project_name : string) (parse_result : json) (found : counters)
  : json :=
  JObj [("success", JBool true);
        ("project_name", JStr project_name);
        ("parse_result", parse_result);
        ("tasks_created", JInt (tasks_created found));
        ("documentation_created", JInt (documentation_created found));
        ("estimated_hours", JInt (estimated_hours found))].

Definition is_invocation (c : call) : bool :=
  match c with
  | Invoke _ _ => true
  | Discover => false
  end.

(** The name of a tool entry, when the entry is an object that has one. *)
Definition tool_name_of (tool : json) : option json :=
  match tool with
  | JObj fields => dict_get "name" fields
  | _ => None
  end.

(** The keys of a dict, in order. *)
Definition keys {V : Type} (d : list (string * V)) : list string := map fst d.

(** An optional string that counts: neither [None] nor empty. *)
Definition given (s : option string) : option json :=
  match s with
  | Some (String c rest) => Some (JStr (String c rest))
  | _ => None
  end.

(** An optional list of strings that counts: neither [None] nor empty. *)
Definition given_list (l : option (list string)) : option json :=
  match l with
  | Some (x :: rest) => Some (JArr (map JStr (x :: rest)))
  | _ => None
  end.

(** The arguments with which [get_project_status_via_mcp] lists the tasks
    of a project. *)
Definition status_tasks_arguments (project_name : string) : list (string * json) :=
  match project_name with
  | EmptyString => [("limit", JInt 50)]
  | _ => [("limit", JInt 50); ("projectName", JStr project_name)]
  end.

(** The dict that reports a project as active. *)
Definition active_status (project_name : string) (tasks documentation : json) : json :=
  JObj [("project_name", JStr project_name);
        ("tasks", tasks);
        ("documentation", documentation);
        ("status", JStr "active")].

(** What stands for the documentation after the call that lists it. *)
Definition documentation_or_placeholder (listing : outcome json) : json :=
  match listing with
  | Return documentation => documentation
  | Raise _ => documentation_not_available
  end.

(** The world in which the block of [async with MCPClient(...)] starts: a
    new session for the agent's dependencies, the wire as it is. *)
Definition agent_session (deps : ResearchAgentDependencies) (w : World) : World :=
  {| self := __init__ (mcp_config_of deps); outbox := outbox w |}.

(** The dict that reports a failure of the status request. *)
Definition error_status (project_name : string) (e : exn) : json :=
  JObj [("project_name", JStr project_name);
        ("error", JStr (str e));
        ("status", JStr "error")].

(** The request each operation puts on the wire in world [w], and the world
    once it is sent. *)

Definition tools_list_post (w : World) : Request :=
  {| method := "POST";
     url := server_url (config (self w)) ++ "/tools/list";
     request_headers := headers (client (self w));
     json_body := tools_list_request |}.

Definition tools_call_post (w : World) (tool_name : string)
    (arguments : list (string * json)) : Request :=
  {| method := "POST";
     url := server_url (config (self w)) ++ "/tools/call";
     request_headers := headers (client (self w));
     json_body :=
       JObj [("jsonrpc", JStr "2.0"); ("id", JInt 1);
             ("method", JStr "tools/call");
             ("params", JObj [("name", JStr tool_name); ("arguments", JObj arguments)])] |}.

Definition sent (w : World) (request : Request) : World :=
  {| self := self w; outbox := outbox w ++ [request] |}.

(** The world after a discovery that cached [tools]. *)
Definition cached (w : World) (tools : list json) : World :=
  {| self := {| config := config (self w);
                client := client (self w);
                _available_tools := Some tools |};
     outbox := outbox w |}.

(** A session that has discovered tools before. *)
Definition seasoned : World := cached (open test_config) [JStr "listTasks"].

(** The replies that the operations treat as failures: the transport
    raised an error, the status is not 2xx, the body is not JSON, or the
    body is an object with an [error] field. *)
Inductive failing : Reply -> Prop :=
| transport_failure (e : exn) :
    isinstance_Exception e = true -> failing (Fails e)
| status_failure (r : Response) :
    is_success r = false -> failing (Responds r)
| malformed_body (r : Response) (decoder_text : string) :
    content r = NotJson decoder_text -> failing (Responds r)
| server_error (r : Response) (fields : list (string * json)) (err : json) :
    content r = Json (JObj fields) ->
    dict_get "error" fields = Some err -> failing (Responds r).

(** * Properties *)

(** ** Running the monad *)

Ltac run :=
  unfold discover_tools, call_tool, try_except, bind, get_self, post,
    tools_list_post, tools_call_post, tools_call_request, sent, cached in *;
  cbn [fst snd] in *.

Ltac reply_with H :=
  run; rewrite H; unfold raise_for_status, is_success, response_json, raise, ret.

(** The same for an invocation whose arguments can be printed ([P]). *)
Ltac printed P :=
  run; unfold py_format; rewrite P; unfold ret at 1; cbv beta iota.

Ltac call_reply_with P H :=
  printed P; rewrite H; unfold raise_for_status, is_success, response_json, raise, ret.

(** The interpreter's operations and the parsing steps leave the world
    alone. *)

Lemma py_in_world key v w : snd (py_in key v w) = w.
Proof. destruct v; reflexivity. Qed.

Lemma py_getitem_world v key w : snd (py_getitem v key w) = w.
Proof. destruct v; try reflexivity. cbn. destruct (dict_get key fields); reflexivity. Qed.

Lemma py_get_world v key default w : snd (py_get v key default w) = w.
Proof. destruct v; reflexivity. Qed.

Lemma py_iter_world v w : snd (py_iter v w) = w.
Proof. destruct v; reflexivity. Qed.

Lemma comprehension_world {A B} (f : A -> M B) xs :
  (forall x w, snd (f x w) = w) ->
  forall w, snd (comprehension f xs w) = w.
Proof.
  intros Hf. induction xs as [|x rest IH]; intros w; [reflexivity|].
  cbn. unfold bind.
  specialize (Hf x w). destruct (f x w) as [[y|e] w1]; cbn in Hf; subst w1; [|reflexivity].
  specialize (IH w). destruct (comprehension f rest w) as [[ys|e] w2]; cbn in IH; subst w2;
    reflexivity.
Qed.

(** The names of a well-formed tool list come out in order. *)
Lemma comprehension_names names w :
  comprehension (fun tool => py_getitem tool "name")
    (map (fun n => JObj [("name", JStr n)]) names) w
  = (Return (map JStr names), w).
Proof.
  induction names as [|n rest IH]; [reflexivity|].
  cbn. unfold bind. cbn. rewrite IH. reflexivity.
Qed.

(** ** Status 401 *)

(** C4: an HTTP 401 reply to a discovery makes it raise
    [MCPAuthenticationError], and an HTTP 401 reply to an invocation makes
    it raise [MCPAuthenticationError], each on its own, whatever the server
    does with the other operation; the class is not that of the generic
    [MCPClientError] raised for the other HTTP failures.  (A reply to an
    invocation is a reply to its request: the arguments were printed.) *)
Theorem unauthorized_raises_authentication_error
    (net : Transport) (w : World) (tool_name : string)
    (arguments : list (string * json)) :
  (forall r,
      net (outbox w) (tools_list_post w) = Responds r ->
      status_code r = 401 ->
      let e := MCPAuthenticationError "GitHub authentication required for MCP server"
                 (Some (HTTPStatusError (status_error_text r) r)) in
      fst (discover_tools net w) = Raise e /\
      class_name e = "MCPAuthenticationError" /\
      class_name e <> "MCPClientError") /\
  (forall r,
      printable (JObj arguments) = true ->
      net (outbox w) (tools_call_post w tool_name arguments) = Responds r ->
      status_code r = 401 ->
      let e := MCPAuthenticationError ("Authentication failed for tool '" ++ tool_name ++ "'")
                 (Some (HTTPStatusError (status_error_text r) r)) in
      fst (call_tool net tool_name arguments w) = Raise e /\
      class_name e = "MCPAuthenticationError" /\
      class_name e <> "MCPClientError").
Proof.
  split.
  - intros r H S e. split; [|cbn; split; [reflexivity | discriminate]].
    reply_with H. rewrite S. cbn. rewrite S. reflexivity.
  - intros r P H S e. split; [|cbn; split; [reflexivity | discriminate]].
    call_reply_with P H. rewrite S. cbn. rewrite S. reflexivity.
Qed.

Lemma unauthorized_raises_authentication_error_witness :
  let refused := Responds (status_response 401 "Client error '401 Unauthorized'") in
  let served := Responds (ok_response (JObj [("result", JObj [("tools", JArr [])])])) in
  fst (discover_tools (routes refused served) (open test_config))
  = Raise (MCPAuthenticationError "GitHub authentication required for MCP server"
             (Some (HTTPStatusError "Client error '401 Unauthorized'"
                      (status_response 401 "Client error '401 Unauthorized'")))) /\
  fst (call_tool (routes served refused) "createTask" [("title", JStr "T")] (open test_config))
  = Raise (MCPAuthenticationError "Authentication failed for tool 'createTask'"
             (Some (HTTPStatusError "Client error '401 Unauthorized'"
                      (status_response 401 "Client error '401 Unauthorized'")))).
Proof.
  intros refused served. split.
  - exact (proj1 (proj1 (unauthorized_raises_authentication_error
                           (routes refused served) (open test_config) "createTask" [])
                    (status_response 401 "Client error '401 Unauthorized'") eq_refl eq_refl)).
  - exact (proj1 (proj2 (unauthorized_raises_authentication_error
                           (routes served refused) (open test_config) "createTask"
                           [("title", JStr "T")])
                    (status_response 401 "Client error '401 Unauthorized'")
                    eq_refl eq_refl eq_refl)).
Defined.

(** ** Status 404 *)

(** C3, as the code has it: an HTTP 404 reply to an invocation makes it
    raise the base [MCPClientError] with the message
    [Tool '<name>' not found on server]; an HTTP 404 reply to a discovery
    has no clause of its own and makes it raise the generic [MCPClientError]
    for HTTP failures; each on its own, whatever the server does with the
    other operation.  Both are chained to the [HTTPStatusError] that
    carries the response and its status. *)
Theorem not_found_raises_client_error
    (net : Transport) (w : World) (tool_name : string)
    (arguments : list (string * json)) :
  (forall r,
      printable (JObj arguments) = true ->
      net (outbox w) (tools_call_post w tool_name arguments) = Responds r ->
      status_code r = 404 ->
      fst (call_tool net tool_name arguments w)
      = Raise (MCPClientError ("Tool '" ++ tool_name ++ "' not found on server")
                 (Some (HTTPStatusError (status_error_text r) r)))) /\
  (forall r,
      net (outbox w) (tools_list_post w) = Responds r ->
      status_code r = 404 ->
      fst (discover_tools net w)
      = Raise (MCPClientError ("HTTP error during tool discovery: " ++ status_error_text r)
                 (Some (HTTPStatusError (status_error_text r) r)))).
Proof.
  split.
  - intros r P H S. call_reply_with P H. rewrite S. cbn. rewrite S. reflexivity.
  - intros r H S. reply_with H. rewrite S. cbn. rewrite S. reflexivity.
Qed.

Lemma not_found_raises_client_error_witness :
  let missing := Responds (status_response 404 "Client error '404 Not Found'") in
  let served := Responds (ok_response (JObj [("result", JObj [("tools", JArr [])])])) in
  fst (call_tool (routes served missing) "createTask" [("title", JStr "T")] (open test_config))
  = Raise (MCPClientError "Tool 'createTask' not found on server"
             (Some (HTTPStatusError "Client error '404 Not Found'"
                      (status_response 404 "Client error '404 Not Found'")))) /\
  fst (discover_tools (routes missing served) (open test_config))
  = Raise (MCPClientError "HTTP error during tool discovery: Client error '404 Not Found'"
             (Some (HTTPStatusError "Client error '404 Not Found'"
                      (status_response 404 "Client error '404 Not Found'")))).
Proof.
  intros missing served. split.
  - exact (proj1 (not_found_raises_client_error
                    (routes served missing) (open test_config) "createTask"
                    [("title", JStr "T")])
             (status_response 404 "Client error '404 Not Found'") eq_refl eq_refl eq_refl).
  - exact (proj2 (not_found_raises_client_error
                    (routes missing served) (open test_config) "createTask" [])
             (status_response 404 "Client error '404 Not Found'") eq_refl eq_refl).
Defined.

(** C3, as the claim has it, fails: the exception raised for a 404 on
    invocation has the very class of the one raised for a 500, the generic
    HTTP failure. *)
Lemma not_found_class_is_the_generic_one :
  exists e404 e500,
    fst (call_tool (always (status_response 404 "Client error '404 Not Found'"))
           "createTask" [] (open test_config)) = Raise e404 /\
    fst (call_tool (always (status_response 500 "Server error '500 Internal Server Error'"))
           "createTask" [] (open test_config)) = Raise e500 /\
    class_name e404 = "MCPClientError" /\
    class_name e404 = class_name e500.
Proof.
  eexists; eexists. repeat split.
Qed.

(** ** A reply with an [error] field *)

(** On discovery the [MCPServerError] raised in the [try] body is caught by
    the [except Exception] clause of the same statement and leaves as a
    base [MCPClientError].  The text is given for an [error] within
    ASCII. *)
Lemma discover_tools_error_field
    (net : Transport) (w : World) (r : Response) (fields : list (string * json)) (err : json) :
  net (outbox w) (tools_list_post w) = Responds r ->
  is_success r = true ->
  content r = Json (JObj fields) ->
  dict_get "error" fields = Some err ->
  ascii_value err = true ->
  discover_tools net w
  = (Raise (MCPClientError
              ("Failed to discover tools: Tool discovery failed: " ++ py_str err)
              (Some (MCPServerError ("Tool discovery failed: " ++ py_str err) None))),
     sent w (tools_list_post w)).
Proof.
  intros H S C E _. reply_with H. fold (is_success r). rewrite S, C. cbn. rewrite E.
  reflexivity.
Qed.

(** The same on invocation, for an [error] object with or without a
    [message]. *)
Lemma call_tool_error_field
    (net : Transport) (w : World) (tool_name : string) (arguments : list (string * json))
    (r : Response) (fields details : list (string * json)) :
  printable (JObj arguments) = true ->
  net (outbox w) (tools_call_post w tool_name arguments) = Responds r ->
  is_success r = true ->
  content r = Json (JObj fields) ->
  dict_get "error" fields = Some (JObj details) ->
  ascii_value (JObj details) = true ->
  let error_msg := match dict_get "message" details with
                   | Some m => m
                   | None => JStr "Unknown MCP error"
                   end in
  call_tool net tool_name arguments w
  = (Raise (MCPClientError
              ("Failed to call tool '" ++ tool_name ++ "': Tool '" ++ tool_name
               ++ "' failed: " ++ py_str error_msg)
              (Some (MCPServerError
                       ("Tool '" ++ tool_name ++ "' failed: " ++ py_str error_msg) None))),
     sent w (tools_call_post w tool_name arguments)).
Proof.
  intros P H S C E _ error_msg. call_reply_with P H. fold (is_success r). rewrite S, C. cbn.
  rewrite E. reflexivity.
Qed.

(** C1, on the code: for the 200 reply [{"error": {"message": "bad input"}}]
    both operations raise an exception of class [MCPClientError], not
    [MCPServerError]; the [MCPServerError] is only its context.  The text
    [bad input] is in both messages. *)
Theorem server_error_leaves_as_client_error :
  let net := always (ok_response (JObj [("error", JObj [("message", JStr "bad input")])])) in
  let e1 := MCPClientError
              "Failed to discover tools: Tool discovery failed: {'message': 'bad input'}"
              (Some (MCPServerError "Tool discovery failed: {'message': 'bad input'}" None)) in
  let e2 := MCPClientError
              "Failed to call tool 'createTask': Tool 'createTask' failed: bad input"
              (Some (MCPServerError "Tool 'createTask' failed: bad input" None)) in
  fst (discover_tools net (open test_config)) = Raise e1 /\
  fst (call_tool net "createTask" [] (open test_config)) = Raise e2 /\
  class_name e1 = "MCPClientError" /\
  class_name e2 = "MCPClientError" /\
  contains "bad input" (str e1) = true /\
  contains "bad input" (str e2) = true.
Proof.
  cbv zeta. repeat split.
Qed.

(** One step of a proof by cases on a call that leaves the world alone. *)
Ltac pure_call :=
  match goal with
  | |- context [py_in ?k ?v ?w1] =>
      let H := fresh in
      pose proof (py_in_world k v w1) as H;
      destruct (py_in k v w1) as [[[|]|?] ?]; cbn in H; subst; cbn
  | |- context [py_getitem ?v ?k ?w1] =>
      let H := fresh in
      pose proof (py_getitem_world v k w1) as H;
      destruct (py_getitem v k w1) as [[?|?] ?]; cbn in H; subst; cbn
  | |- context [py_get ?v ?k ?d ?w1] =>
      let H := fresh in
      pose proof (py_get_world v k d w1) as H;
      destruct (py_get v k d w1) as [[?|?] ?]; cbn in H; subst; cbn
  | |- context [py_iter ?v ?w1] =>
      let H := fresh in
      pose proof (py_iter_world v w1) as H;
      destruct (py_iter v w1) as [[?|?] ?]; cbn in H; subst; cbn
  | |- context [comprehension ?f ?xs ?w1] =>
      let H := fresh in
      pose proof (comprehension_world f xs (fun x w => py_getitem_world x "name" w) w1) as H;
      destruct (comprehension f xs w1) as [[?|?] ?]; cbn in H; subst; cbn
  end.

(** Cases on which clause of the [except] part an exception reaches. *)
Ltac handled :=
  cbn;
  repeat match goal with
    | |- context [isinstance_Exception ?e] => destruct e; cbn
    | |- context [status_code ?r =? ?c] => destruct (status_code r =? c); cbn
    end.

(** ** What the operations do to the world

    An invocation whose arguments can be printed changes the world by the
    one request it sends, whatever the outcome; one whose arguments cannot,
    raises before it sends and changes nothing.  A discovery sends its one
    request and, only when it returns, stores the list it returns. *)

Lemma call_tool_unprintable
    (net : Transport) (tool_name : string) (arguments : list (string * json)) (w : World) :
  printable (JObj arguments) = false ->
  call_tool net tool_name arguments w
  = (Raise (MCPClientError ("Failed to call tool '" ++ tool_name ++ "': " ++ int_limit_text)
              (Some (Error ValueError int_limit_text))),
     w).
Proof.
  intros P. run. unfold py_format. rewrite P. reflexivity.
Qed.

Lemma call_tool_sent
    (net : Transport) (tool_name : string) (arguments : list (string * json)) (w : World) :
  printable (JObj arguments) = true ->
  snd (call_tool net tool_name arguments w) = sent w (tools_call_post w tool_name arguments).
Proof.
  intros P. printed P.
  destruct (net (outbox w) _) as [r|e]; [|handled; reflexivity].
  unfold raise_for_status. destruct (is_success r); [|handled; reflexivity].
  cbn. unfold response_json. destruct (content r) as [data|t]; [|reflexivity].
  cbn. repeat (pure_call; try (handled; reflexivity)).
Qed.

Lemma call_tool_world
    (net : Transport) (tool_name : string) (arguments : list (string * json)) (w : World) :
  snd (call_tool net tool_name arguments w)
  = if printable (JObj arguments)
    then sent w (tools_call_post w tool_name arguments)
    else w.
Proof.
  destruct (printable (JObj arguments)) eqn:P.
  - apply call_tool_sent. exact P.
  - rewrite (call_tool_unprintable _ _ _ _ P). reflexivity.
Qed.

Lemma discover_tools_world (net : Transport) (w : World) :
  snd (discover_tools net w)
  = match fst (discover_tools net w) with
    | Return tools => cached (sent w (tools_list_post w)) tools
    | Raise _ => sent w (tools_list_post w)
    end.
Proof.
  run.
  destruct (net (outbox w) _) as [r|e]; [|handled; reflexivity].
  unfold raise_for_status. destruct (is_success r); [|handled; reflexivity].
  cbn. unfold response_json. destruct (content r) as [data|t]; [|reflexivity].
  cbn. repeat (pure_call; try (handled; reflexivity)).
Qed.

(** ** The empty tool name *)




(** ** Discovery *)

(** C5: for a successful reply [{"result": {"tools": [{"name": n1}, ...,
    {"name": nk}]}}] discovery returns [n1, ..., nk] in that order,
    duplicates and all, and the session's cached list is that sequence
    afterwards, whatever it was before. *)
Theorem discovery_round_trip
    (net : Transport) (w : World) (r : Response) (names : list string) :
  net (outbox w) (tools_list_post w) = Responds r ->
  is_success r = true ->
  content r
  = Json (JObj [("result",
                 JObj [("tools", JArr (map (fun n => JObj [("name", JStr n)]) names))])]) ->
  fst (discover_tools net w) = Return (map JStr names) /\
  _available_tools (self (snd (discover_tools net w))) = Some (map JStr names).
Proof.
  intros H S C.
  assert (E : fst (discover_tools net w) = Return (map JStr names)).
  { reply_with H. fold (is_success r). rewrite S, C. cbn.
    rewrite comprehension_names. reflexivity. }
  split; [exact E|].
  rewrite discover_tools_world, E. reflexivity.
Qed.

Lemma discovery_round_trip_witness :
  let net := always (ok_response
                       (JObj [("result",
                               JObj [("tools", JArr [JObj [("name", JStr "parsePRP")];
                                                     JObj [("name", JStr "createTask")];
                                                     JObj [("name", JStr "parsePRP")]])])])) in
  fst (discover_tools net seasoned)
  = Return [JStr "parsePRP"; JStr "createTask"; JStr "parsePRP"] /\
  _available_tools (self (snd (discover_tools net seasoned)))
  = Some [JStr "parsePRP"; JStr "createTask"; JStr "parsePRP"].
Proof.
  intros net.
  exact (discovery_round_trip net seasoned _ ["parsePRP"; "createTask"; "parsePRP"]
           eq_refl eq_refl eq_refl).
Defined.

(** ** Failures and the cached list *)

(** C6: when a discovery or an invocation raises, for whatever reason, the
    cached tool list is what it was before the call. *)
Theorem failure_keeps_cached_tools
    (net : Transport) (w : World) (tool_name : string)
    (arguments : list (string * json)) (e : exn) :
  (fst (discover_tools net w) = Raise e ->
   _available_tools (self (snd (discover_tools net w))) = _available_tools (self w)) /\
  (fst (call_tool net tool_name arguments w) = Raise e ->
   _available_tools (self (snd (call_tool net tool_name arguments w)))
   = _available_tools (self w)).
Proof.
  split; intros H.
  - rewrite discover_tools_world, H. reflexivity.
  - rewrite call_tool_world. destruct (printable (JObj arguments)); reflexivity.
Qed.

Lemma failure_keeps_cached_tools_witness :
  let net : Transport := fun _ _ => Fails (Error ReadTimeout "The read operation timed out") in
  _available_tools (self (snd (discover_tools net seasoned))) = Some [JStr "listTasks"] /\
  _available_tools (self (snd (call_tool net "createTask" [] seasoned)))
  = Some [JStr "listTasks"].
Proof.
  intros net.
  pose proof (failure_keeps_cached_tools net seasoned "createTask" []
                (MCPClientError "Failed to discover tools: The read operation timed out"
                   (Some (Error ReadTimeout "The read operation timed out")))) as [D _].
  pose proof (failure_keeps_cached_tools net seasoned "createTask" []
                (MCPClientError
                   "Failed to call tool 'createTask': The read operation timed out"
                   (Some (Error ReadTimeout "The read operation timed out")))) as [_ C].
  split; [exact (D eq_refl) | exact (C eq_refl)].
Defined.

(** ** Invocation *)




(** ** The classes of what is raised *)

Ltac raised :=
  let V := fresh "V" in
  intros V; try discriminate V; injection V as <-; cbn; auto.

(** What leaves [discover_tools] is an [MCPClientError], by class or by
    subclass, or it is no [Exception] at all (then the transport raised it
    and no clause caught it). *)
Lemma discover_tools_raises (net : Transport) (w : World) (e : exn) :
  fst (discover_tools net w) = Raise e ->
  isinstance_MCPClientError e = true \/ isinstance_Exception e = false.
Proof.
  run.
  destruct (net (outbox w) _) as [r|e0]; [|handled; raised].
  unfold raise_for_status. destruct (is_success r); [|handled; raised].
  cbn. unfold response_json. destruct (content r) as [data|t]; [|cbn; raised].
  cbn. repeat (pure_call; try (handled; raised)).
Qed.

Lemma call_tool_raises
    (net : Transport) (tool_name : string) (arguments : list (string * json))
    (w : World) (e : exn) :
  fst (call_tool net tool_name arguments w) = Raise e ->
  isinstance_MCPClientError e = true \/ isinstance_Exception e = false.
Proof.
  destruct (printable (JObj arguments)) eqn:P;
    [|rewrite (call_tool_unprintable _ _ _ _ P); raised].
  printed P.
  destruct (net (outbox w) _) as [r|e0]; [|handled; raised].
  unfold raise_for_status. destruct (is_success r); [|handled; raised].
  cbn. unfold response_json. destruct (content r) as [data|t]; [|cbn; raised].
  cbn. repeat (pure_call; try (handled; raised)).
Qed.

(** C10: every error (every instance of [Exception]) that a discovery or an
    invocation raises is an instance of [MCPClientError]. *)
Theorem every_error_is_a_client_error
    (net : Transport) (w : World) (tool_name : string)
    (arguments : list (string * json)) (e : exn) :
  fst (discover_tools net w) = Raise e \/
  fst (call_tool net tool_name arguments w) = Raise e ->
  isinstance_Exception e = true ->
  isinstance_MCPClientError e = true.
Proof.
  intros [H|H] X.
  - destruct (discover_tools_raises net w e H) as [K|K]; [exact K | congruence].
  - destruct (call_tool_raises net tool_name arguments w e H) as [K|K]; [exact K | congruence].
Qed.

Lemma every_error_is_a_client_error_witness :
  isinstance_MCPClientError
    (MCPClientError "Failed to discover tools: All connection attempts failed"
       (Some (Error ConnectError "All connection attempts failed"))) = true /\
  isinstance_MCPClientError
    (MCPAuthenticationError "Authentication failed for tool 'createTask'"
       (Some (HTTPStatusError "Client error '401 Unauthorized'"
                (status_response 401 "Client error '401 Unauthorized'")))) = true.
Proof.
  split.
  - exact (every_error_is_a_client_error
             (fun _ _ => Fails (Error ConnectError "All connection attempts failed"))
             (open test_config) "createTask" [] _ (or_introl eq_refl) eq_refl).
  - exact (every_error_is_a_client_error
             (always (status_response 401 "Client error '401 Unauthorized'"))
             (open test_config) "createTask" [] _ (or_intror eq_refl) eq_refl).
Defined.

(** ** Failures and missing fields *)

Lemma discover_tools_fails_on_failing (net : Transport) (w : World) :
  failing (net (outbox w) (tools_list_post w)) ->
  exists e, fst (discover_tools net w) = Raise e /\ isinstance_MCPClientError e = true.
Proof.
  intros F. run.
  inversion F as [e X H | r S H | r t C H | r fields err C E H]; clear F.
  - destruct e; try discriminate X; handled; eexists; split; reflexivity.
  - unfold raise_for_status. rewrite S. handled; eexists; split; reflexivity.
  - unfold raise_for_status, response_json.
    destruct (is_success r); [rewrite C|]; handled; eexists; split; reflexivity.
  - unfold raise_for_status, response_json.
    destruct (is_success r); [rewrite C; cbn; rewrite E|]; handled; eexists; split; reflexivity.
Qed.

Lemma call_tool_fails_on_failing
    (net : Transport) (tool_name : string) (arguments : list (string * json)) (w : World) :
  failing (net (outbox w) (tools_call_post w tool_name arguments)) ->
  exists e,
    fst (call_tool net tool_name arguments w) = Raise e /\ isinstance_MCPClientError e = true.
Proof.
  intros F.
  destruct (printable (JObj arguments)) eqn:P;
    [|rewrite (call_tool_unprintable _ _ _ _ P); eexists; split; reflexivity].
  printed P.
  inversion F as [e X H | r S H | r t C H | r fields err C E H]; clear F.
  - destruct e; try discriminate X; handled; eexists; split; reflexivity.
  - unfold raise_for_status. rewrite S. handled; eexists; split; reflexivity.
  - unfold raise_for_status, response_json.
    destruct (is_success r); [rewrite C|]; handled; eexists; split; reflexivity.
  - unfold raise_for_status, response_json.
    destruct (is_success r); [rewrite C; cbn; rewrite E; destruct err|];
      handled; eexists; split; reflexivity.
Qed.

(** C8, as the code has it: a transport error, a status that is not 2xx, a
    body that is not JSON and a body with an [error] field each make the
    operation raise an instance of [MCPClientError]; for a body that is not
    JSON it is the base class, with the decoder's text.  A successful reply
    that is an object with neither [error] nor [result] is no failure:
    invocation returns the empty mapping, discovery returns the empty list
    and caches it; so does discovery for a [result] object without
    [tools].  Where the text raised or the value returned by an invocation
    is given, the reply is one to its request: the arguments were
    printed. *)
Theorem failures_raise_and_missing_fields_default
    (net : Transport) (w : World) (tool_name : string) (arguments : list (string * json)) :
  let list_reply := net (outbox w) (tools_list_post w) in
  let call_reply := net (outbox w) (tools_call_post w tool_name arguments) in
  (failing list_reply ->
   exists e, fst (discover_tools net w) = Raise e /\ isinstance_MCPClientError e = true) /\
  (failing call_reply ->
   exists e, fst (call_tool net tool_name arguments w) = Raise e /\
             isinstance_MCPClientError e = true) /\
  (forall r t,
      list_reply = Responds r -> is_success r = true -> content r = NotJson t ->
      fst (discover_tools net w)
      = Raise (MCPClientError ("Failed to discover tools: " ++ t)
                 (Some (Error JSONDecodeError t)))) /\
  (forall r t,
      printable (JObj arguments) = true ->
      call_reply = Responds r -> is_success r = true -> content r = NotJson t ->
      fst (call_tool net tool_name arguments w)
      = Raise (MCPClientError ("Failed to call tool '" ++ tool_name ++ "': " ++ t)
                 (Some (Error JSONDecodeError t)))) /\
  (forall r fields,
      printable (JObj arguments) = true ->
      call_reply = Responds r -> is_success r = true -> content r = Json (JObj fields) ->
      dict_get "error" fields = None -> dict_get "result" fields = None ->
      fst (call_tool net tool_name arguments w) = Return (JObj [])) /\
  (forall r fields,
      list_reply = Responds r -> is_success r = true -> content r = Json (JObj fields) ->
      dict_get "error" fields = None -> dict_get "result" fields = None ->
      fst (discover_tools net w) = Return [] /\
      _available_tools (self (snd (discover_tools net w))) = Some []) /\
  (forall r fields inner,
      list_reply = Responds r -> is_success r = true -> content r = Json (JObj fields) ->
      dict_get "error" fields = None -> dict_get "result" fields = Some (JObj inner) ->
      dict_get "tools" inner = None ->
      fst (discover_tools net w) = Return [] /\
      _available_tools (self (snd (discover_tools net w))) = Some []).
Proof.
  intros list_reply call_reply. subst list_reply call_reply.
  split; [apply discover_tools_fails_on_failing|].
  split; [apply call_tool_fails_on_failing|].
  split; [|split; [|split; [|split]]].
  - intros r t H S C. reply_with H. fold (is_success r). rewrite S, C. reflexivity.
  - intros r t P H S C. call_reply_with P H. fold (is_success r). rewrite S, C. reflexivity.
  - intros r fields P H S C E R. call_reply_with P H. fold (is_success r). rewrite S, C. cbn.
    rewrite E. cbn. rewrite R. reflexivity.
  - intros r fields H S C E R.
    assert (D : fst (discover_tools net w) = Return []).
    { reply_with H. fold (is_success r). rewrite S, C. cbn. rewrite E. cbn. rewrite R.
      reflexivity. }
    split; [exact D|]. rewrite discover_tools_world, D. reflexivity.
  - intros r fields inner H S C E R T.
    assert (D : fst (discover_tools net w) = Return []).
    { reply_with H. fold (is_success r). rewrite S, C. cbn. rewrite E. cbn. rewrite R.
      cbn. rewrite T. reflexivity. }
    split; [exact D|]. rewrite discover_tools_world, D. reflexivity.
Qed.

Lemma failures_raise_and_missing_fields_default_witness :
  let net := always (status_response 200 "") in
  fst (discover_tools net (open test_config))
  = Raise (MCPClientError
             "Failed to discover tools: Expecting value: line 1 column 1 (char 0)"
             (Some (Error JSONDecodeError "Expecting value: line 1 column 1 (char 0)"))) /\
  fst (call_tool (always (ok_response (JObj [("jsonrpc", JStr "2.0")]))) "createTask" []
         (open test_config))
  = Return (JObj []).
Proof.
  intros net. split.
  - destruct (failures_raise_and_missing_fields_default net (open test_config) "createTask" [])
      as (_ & _ & D & _).
    exact (D (status_response 200 "") _ eq_refl eq_refl eq_refl).
  - destruct (failures_raise_and_missing_fields_default
                (always (ok_response (JObj [("jsonrpc", JStr "2.0")])))
                (open test_config) "createTask" [])
      as (_ & _ & _ & _ & C & _).
    exact (C (ok_response (JObj [("jsonrpc", JStr "2.0")])) [("jsonrpc", JStr "2.0")]
             eq_refl eq_refl eq_refl eq_refl eq_refl eq_refl).
Defined.

(** C8, as the claim has it, fails: a 200 reply [{}] makes invocation
    return the empty mapping and discovery the empty list, and a 200 reply
    [{"result": {}}] makes discovery return the empty list; nothing is
    raised. *)
Lemma missing_envelope_returns_empty :
  fst (call_tool (always (ok_response (JObj []))) "createTask" [] (open test_config))
  = Return (JObj []) /\
  fst (discover_tools (always (ok_response (JObj []))) (open test_config)) = Return [] /\
  fst (discover_tools (always (ok_response (JObj [("result", JObj [])]))) (open test_config))
  = Return [].
Proof.
  repeat split.
Qed.

(** ** Headers *)

Lemma perform_world (net : Transport) (c : call) (w : World) :
  config (self (perform net c w)) = config (self w) /\
  client (self (perform net c w)) = client (self w) /\
  exists requests,
    outbox (perform net c w) = (outbox w ++ requests)%list /\
    (length requests <= 1)%nat /\
    Forall (fun request => request_headers request = headers (client (self w))) requests.
Proof.
  destruct c as [|tool_name arguments]; cbn [perform].
  - rewrite discover_tools_world.
    destruct (fst (discover_tools net w)); cbn; repeat split;
      eexists; (split; [reflexivity|]); (split; [cbn; lia|]); repeat constructor.
  - rewrite call_tool_world. destruct (printable (JObj arguments)); cbn; repeat split.
    + eexists; (split; [reflexivity|]); (split; [cbn; lia|]); repeat constructor.
    + exists []. rewrite app_nil_r. repeat split; [cbn; lia | constructor].
Qed.

Lemma lifetime_headers (net : Transport) (calls : list call) :
  forall (w : World) (hs : list (string * string)),
    headers (client (self w)) = hs ->
    Forall (fun request => request_headers request = hs) (outbox w) ->
    Forall (fun request => request_headers request = hs) (outbox (lifetime net calls w)) /\
    (length (outbox (lifetime net calls w)) <= length (outbox w) + length calls)%nat.
Proof.
  induction calls as [|c rest IH]; intros w hs Hh Hall.
  - cbn. split; [exact Hall | lia].
  - cbn [lifetime fold_left].
    destruct (perform_world net c w) as (_ & Hc & requests & Ho & Hl & Hr).
    destruct (IH (perform net c w) hs) as [A L].
    + rewrite Hc. exact Hh.
    + rewrite Ho. apply Forall_app. split; [exact Hall|].
      rewrite Hh in Hr. exact Hr.
    + unfold lifetime in *. split; [exact A|].
      rewrite Ho, length_app in L. cbn [length]. lia.
Qed.

(** C9: every request of a session carries the headers computed when the
    session was opened, no call sending more than one request: the JSON
    content type, the user agent and, exactly when a credential is
    configured, [Authorization: Bearer <token>].  A credential is
    configured when the token is a string that is not empty: the code tests
    the token for truth, so [None] and the empty string are both no
    credential. *)
Theorem baseline_headers_on_every_request
    (cfg : MCPClientConfig) (net : Transport) (calls : list call) :
  Forall (fun request => request_headers request = _get_headers cfg)
         (outbox (lifetime net calls (open cfg))) /\
  (length (outbox (lifetime net calls (open cfg))) <= length calls)%nat /\
  dict_get "Content-Type" (_get_headers cfg) = Some "application/json" /\
  dict_get "User-Agent" (_get_headers cfg) = Some "Research-Agent-MCP-Client/1.0" /\
  dict_get "Authorization" (_get_headers cfg)
  = match github_token cfg with
    | None => None
    | Some EmptyString => None
    | Some token => Some ("Bearer " ++ token)
    end.
Proof.
  destruct (lifetime_headers net calls (open cfg) (_get_headers cfg) eq_refl (Forall_nil _))
    as [A L].
  split; [exact A|]. split; [exact L|].
  unfold _get_headers. destruct (github_token cfg) as [[|c t]|]; cbn; repeat split.
Qed.

(** * More of the module: discovery *)

(** X1: a discovery puts exactly one request on the wire, whatever comes
    back: a POST to [{server_url}/tools/list] with the session's headers and
    the fixed envelope; the session's configuration and HTTP client are the
    same afterwards. *)
Theorem discover_tools_sends_one_request (net : Transport) (w : World) :
  let request :=
    {| method := "POST";
       url := server_url (config (self w)) ++ "/tools/list";
       request_headers := headers (client (self w));
       json_body :=
         JObj [("jsonrpc", JStr "2.0"); ("id", JInt 1);
               ("method", JStr "tools/list"); ("params", JObj [])] |} in
  outbox (snd (discover_tools net w)) = (outbox w ++ [request])%list /\
  config (self (snd (discover_tools net w))) = config (self w) /\
  client (self (snd (discover_tools net w))) = client (self w).
Proof.
  intros request. rewrite discover_tools_world.
  destruct (fst (discover_tools net w)); repeat split.
Qed.

(** X2: whenever a discovery returns a list, that list is what the session
    has cached afterwards, and the reply was a 2xx response whose body is a
    JSON object without an [error] key. *)
Theorem discovered_list_is_cached (net : Transport) (w : World) (tools : list json) :
  fst (discover_tools net w) = Return tools ->
  _available_tools (self (snd (discover_tools net w))) = Some tools /\
  exists r fields,
    net (outbox w) (tools_list_post w) = Responds r /\
    is_success r = true /\
    content r = Json (JObj fields) /\
    dict_get "error" fields = None.
Proof.
  intros H. split; [rewrite discover_tools_world, H; reflexivity|].
  revert H. run.
  destruct (net (outbox w) _) as [r|e]; [|handled; discriminate].
  unfold raise_for_status. fold (is_success r).
  destruct (is_success r) eqn:S; [|handled; discriminate].
  cbn. unfold response_json. destruct (content r) as [data|t] eqn:C; [|discriminate].
  cbn. destruct data; cbn; try discriminate.
  - destruct (contains "error" s); cbn; discriminate.
  - destruct (existsb _ items); cbn; discriminate.
  - destruct (dict_get "error" fields) as [err|] eqn:E; cbn; [discriminate|].
    intros _. exists r, fields. repeat split; assumption.
Qed.

Lemma discovered_list_is_cached_witness :
  _available_tools
    (self (snd (discover_tools (always (ok_response (JObj [("result", JObj [("tools", JStr "")])])))
                  seasoned)))
  = Some [].
Proof.
  exact (proj1 (discovered_list_is_cached
                  (always (ok_response (JObj [("result", JObj [("tools", JStr "")])])))
                  seasoned [] eq_refl)).
Defined.

Lemma comprehension_all_named (items names : list json) (w : World) :
  Forall2 (fun tool name => tool_name_of tool = Some name) items names ->
  comprehension (fun tool => py_getitem tool "name") items w = (Return names, w).
Proof.
  induction 1 as [|tool name items names Hn _ IH]; [reflexivity|].
  cbn. unfold bind.
  destruct tool; cbn in Hn; try discriminate Hn. cbn. rewrite Hn. cbn.
  rewrite IH. reflexivity.
Qed.

Lemma comprehension_one_unnamed (items : list json) (w : World) :
  Exists (fun tool => tool_name_of tool = None) items ->
  exists cls text,
    comprehension (fun tool => py_getitem tool "name") items w = (Raise (Error cls text), w).
Proof.
  induction 1 as [tool rest Hn | tool rest _ IH].
  - cbn. unfold bind.
    destruct tool; cbn in Hn; cbn; try (eexists; eexists; reflexivity).
    rewrite Hn. cbn. eexists; eexists; reflexivity.
  - destruct IH as (cls & text & IH). cbn. unfold bind.
    pose proof (py_getitem_world tool "name" w) as Hw.
    destruct (py_getitem tool "name" w) as [[name|e] w1] eqn:G; cbn in Hw; subst w1.
    + rewrite IH. eexists; eexists; reflexivity.
    + destruct tool; cbn in G; try (injection G as <-; eexists; eexists; reflexivity).
      destruct (dict_get "name" fields); cbn in G; [discriminate G|].
      injection G as <-. eexists; eexists; reflexivity.
Qed.

(** X3: discovery is all or nothing over the entries of [result.tools].
    When every entry is an object with a [name], the names are returned in
    order, whatever else the entries carry; when one entry has none, nothing
    is returned: a base [MCPClientError] is raised and the cached list stays
    what it was, also when the entries before it were fine. *)
Theorem discovery_is_all_or_nothing
    (net : Transport) (w : World) (r : Response)
    (fields inner : list (string * json)) (items : list json) :
  net (outbox w) (tools_list_post w) = Responds r ->
  is_success r = true ->
  content r = Json (JObj fields) ->
  dict_get "error" fields = None ->
  dict_get "result" fields = Some (JObj inner) ->
  dict_get "tools" inner = Some (JArr items) ->
  (forall names,
      Forall2 (fun tool name => tool_name_of tool = Some name) items names ->
      fst (discover_tools net w) = Return names) /\
  (Exists (fun tool => tool_name_of tool = None) items ->
   (exists text context, fst (discover_tools net w) = Raise (MCPClientError text context)) /\
   _available_tools (self (snd (discover_tools net w))) = _available_tools (self w)).
Proof.
  intros H S C E R T. split.
  - intros names Hn. reply_with H. fold (is_success r). rewrite S, C. cbn.
    rewrite E. cbn. rewrite R. cbn. rewrite T. cbn.
    rewrite (comprehension_all_named items names _ Hn). reflexivity.
  - intros Hx.
    assert (D : exists text context,
               fst (discover_tools net w) = Raise (MCPClientError text context)).
    { reply_with H. fold (is_success r). rewrite S, C. cbn.
      rewrite E. cbn. rewrite R. cbn. rewrite T. cbn.
      match goal with |- context [comprehension ?f items ?w1] =>
        destruct (comprehension_one_unnamed items w1 Hx) as (cls & text & K) end.
      rewrite K. cbn. eexists; eexists; reflexivity. }
    split; [exact D|].
    destruct D as (text & context & D). rewrite discover_tools_world, D. reflexivity.
Qed.

Lemma discovery_is_all_or_nothing_witness :
  let good := [JObj [("name", JStr "parsePRP"); ("description", JStr "Parse a PRP")];
               JObj [("name", JStr "createTask")]] in
  let bad := [JObj [("name", JStr "parsePRP")]; JObj [("title", JStr "createTask")]] in
  let reply items := always (ok_response (JObj [("result", JObj [("tools", JArr items)])])) in
  fst (discover_tools (reply good) seasoned) = Return [JStr "parsePRP"; JStr "createTask"] /\
  _available_tools (self (snd (discover_tools (reply bad) seasoned)))
  = Some [JStr "listTasks"].
Proof.
  intros good bad reply. split.
  - refine (proj1 (discovery_is_all_or_nothing (reply good) seasoned _ _ _ good
                     eq_refl eq_refl eq_refl eq_refl eq_refl eq_refl) _ _).
    repeat constructor.
  - refine (proj2 (proj2 (discovery_is_all_or_nothing (reply bad) seasoned _ _ _ bad
                     eq_refl eq_refl eq_refl eq_refl eq_refl eq_refl) _)).
    apply Exists_cons_tl. apply Exists_cons_hd. reflexivity.
Defined.

(** * More of the module: the convenience functions *)

Ltac keys_checked :=
  cbn; repeat split; try reflexivity;
  try (repeat constructor; cbn; intuition discriminate);
  try (intros k Hk; cbn in Hk; intuition (subst; cbn; auto 10)).

(** X4: [parse_prp_via_mcp] is one invocation of the tool [parsePRP].  Its
    arguments always carry [prpContent] as given; [projectName] and
    [projectContext] are there exactly when given and not empty, and there
    is no other key. *)
Theorem parse_prp_via_mcp_arguments
    (net : Transport) (w : World) (prp_content : string)
    (project_name project_context : option string) :
  exists arguments,
    parse_prp_via_mcp net prp_content project_name project_context w
    = call_tool net "parsePRP" arguments w /\
    dict_get "prpContent" arguments = Some (JStr prp_content) /\
    dict_get "projectName" arguments = given project_name /\
    dict_get "projectContext" arguments = given project_context /\
    NoDup (keys arguments) /\
    (forall k, In k (keys arguments) ->
               In k ["prpContent"; "projectName"; "projectContext"]).
Proof.
  unfold parse_prp_via_mcp.
  destruct project_name as [[|c1 s1]|]; destruct project_context as [[|c2 s2]|];
    eexists; (split; [reflexivity|]); keys_checked.
Qed.

(** X5: [create_task_via_mcp] is one invocation of the tool [createTask].
    The four required fields go out as given; [estimatedHours] goes out
    whenever a number is given, zero included, while [assignedTo] and
    [tags] go out only when not empty; there is no other key. *)
Theorem create_task_via_mcp_arguments
    (net : Transport) (w : World) (title description project_name priority : string)
    (estimated_hours : option Z) (assigned_to : option string) (tags : option (list string)) :
  exists arguments,
    create_task_via_mcp net title description project_name priority
      estimated_hours assigned_to tags w
    = call_tool net "createTask" arguments w /\
    dict_get "title" arguments = Some (JStr title) /\
    dict_get "description" arguments = Some (JStr description) /\
    dict_get "projectName" arguments = Some (JStr project_name) /\
    dict_get "priority" arguments = Some (JStr priority) /\
    dict_get "estimatedHours" arguments = option_map JInt estimated_hours /\
    dict_get "assignedTo" arguments = given assigned_to /\
    dict_get "tags" arguments = given_list tags /\
    NoDup (keys arguments) /\
    (forall k, In k (keys arguments) ->
               In k ["title"; "description"; "projectName"; "priority";
                     "estimatedHours"; "assignedTo"; "tags"]).
Proof.
  unfold create_task_via_mcp.
  destruct estimated_hours as [h|]; destruct assigned_to as [[|c1 s1]|];
    destruct tags as [[|t ts]|];
    eexists; (split; [reflexivity|]); keys_checked.
Qed.

(** X6: [create_documentation_via_mcp] is one invocation of the tool
    [createDocumentation].  The document type goes out under the key
    [type]; [tags] go out only when not empty; there is no other key. *)
Theorem create_documentation_via_mcp_arguments
    (net : Transport) (w : World) (title content doc_type project_name importance : string)
    (tags : option (list string)) :
  exists arguments,
    create_documentation_via_mcp net title content doc_type project_name importance tags w
    = call_tool net "createDocumentation" arguments w /\
    dict_get "title" arguments = Some (JStr title) /\
    dict_get "content" arguments = Some (JStr content) /\
    dict_get "type" arguments = Some (JStr doc_type) /\
    dict_get "projectName" arguments = Some (JStr project_name) /\
    dict_get "importance" arguments = Some (JStr importance) /\
    dict_get "tags" arguments = given_list tags /\
    NoDup (keys arguments) /\
    (forall k, In k (keys arguments) ->
               In k ["title"; "content"; "type"; "projectName"; "importance"; "tags"]).
Proof.
  unfold create_documentation_via_mcp.
  destruct tags as [[|t ts]|];
    eexists; (split; [reflexivity|]); keys_checked.
Qed.

(** X7: [list_tasks_via_mcp] is one invocation of the tool [listTasks].
    [limit] always goes out; each of the three filters goes out exactly when
    given and not empty, so an empty project name lists the tasks of every
    project; there is no other key. *)
Theorem list_tasks_via_mcp_arguments
    (net : Transport) (w : World) (project_name status assigned_to : option string)
    (limit : Z) :
  exists arguments,
    list_tasks_via_mcp net project_name status assigned_to limit w
    = call_tool net "listTasks" arguments w /\
    dict_get "limit" arguments = Some (JInt limit) /\
    dict_get "projectName" arguments = given project_name /\
    dict_get "status" arguments = given status /\
    dict_get "assignedTo" arguments = given assigned_to /\
    NoDup (keys arguments) /\
    (forall k, In k (keys arguments) ->
               In k ["limit"; "projectName"; "status"; "assignedTo"]).
Proof.
  unfold list_tasks_via_mcp.
  destruct project_name as [[|c1 s1]|]; destruct status as [[|c2 s2]|];
    destruct assigned_to as [[|c3 s3]|];
    eexists; (split; [reflexivity|]); keys_checked.
Qed.

(** * More of the module: the status of a project *)

Lemma list_tasks_for_status (net : Transport) (project_name : string) (w : World) :
  list_tasks_via_mcp net (Some project_name) None None 50 w
  = call_tool net "listTasks" (status_tasks_arguments project_name) w.
Proof. destruct project_name; reflexivity. Qed.

(** The arguments that these functions build hold strings and the number
    50: they can be printed. *)
Lemma status_tasks_arguments_printable (project_name : string) :
  printable (JObj (status_tasks_arguments project_name)) = true.
Proof. destruct project_name; reflexivity. Qed.

Lemma parse_arguments_printable (prp_content project_name : string) :
  printable (JObj (parse_arguments prp_content project_name)) = true.
Proof. destruct project_name; reflexivity. Qed.

(** One call of [call_tool], by cases on its outcome, the world after it
    known. *)
Ltac invoke net name args w :=
  let W := fresh "W" in
  let K := fresh "K" in
  pose proof (call_tool_world net name args w) as W;
  first [ rewrite status_tasks_arguments_printable in W
        | rewrite parse_arguments_printable in W
        | change (printable (JObj args)) with true in W ];
  pose proof (call_tool_raises net name args w) as K;
  destruct (call_tool net name args w) as [[?|?] ?];
  cbn [fst snd] in W, K; subst;
  first [specialize (K _ eq_refl) | clear K].

(** X8: when the listing of the tasks raises an error,
    [get_project_status_via_mcp] raises a base [MCPClientError] that names
    the project and carries the text of that error.  Only the one request
    has gone out; the documentation was not asked for. *)
Theorem project_status_fails_with_the_task_listing
    (net : Transport) (w : World) (project_name : string) (e : exn) :
  fst (call_tool net "listTasks" (status_tasks_arguments project_name) w) = Raise e ->
  isinstance_Exception e = true ->
  get_project_status_via_mcp net project_name w
  = (Raise (MCPClientError
              ("Failed to get project status for '" ++ project_name ++ "': " ++ str e)
              (Some e)),
     sent w (tools_call_post w "listTasks" (status_tasks_arguments project_name))).
Proof.
  intros H X. unfold get_project_status_via_mcp, try_except, bind.
  rewrite list_tasks_for_status.
  invoke net "listTasks" (status_tasks_arguments project_name) w; cbn in H; [discriminate H|].
  injection H as ->. rewrite X. reflexivity.
Qed.

Lemma project_status_fails_with_the_task_listing_witness :
  let net := always (status_response 401 "Client error '401 Unauthorized'") in
  fst (get_project_status_via_mcp net "demo" (open test_config))
  = Raise (MCPClientError
             "Failed to get project status for 'demo': Authentication failed for tool 'listTasks'"
             (Some (MCPAuthenticationError "Authentication failed for tool 'listTasks'"
                      (Some (HTTPStatusError "Client error '401 Unauthorized'"
                               (status_response 401 "Client error '401 Unauthorized'")))))).
Proof.
  intros net.
  exact (f_equal fst
           (project_status_fails_with_the_task_listing net (open test_config) "demo" _
              eq_refl eq_refl)).
Defined.

(** X9: every error that leaves [get_project_status_via_mcp] has the class
    [MCPClientError] itself: an authentication failure of the server is
    reported under the base class, not as [MCPAuthenticationError]. *)
Theorem project_status_errors_have_the_base_class
    (net : Transport) (w : World) (project_name : string) (e : exn) :
  fst (get_project_status_via_mcp net project_name w) = Raise e ->
  isinstance_Exception e = true ->
  class_name e = "MCPClientError".
Proof.
  unfold get_project_status_via_mcp, try_except, bind.
  rewrite list_tasks_for_status.
  invoke net "listTasks" (status_tasks_arguments project_name) w.
  - match goal with |- context [call_tool net "listDocumentation" ?args ?w1] =>
      invoke net "listDocumentation" args w1 end; cbn [fst].
    + discriminate.
    + destruct K as [K|K].
      * rewrite K. discriminate.
      * match goal with x : exn |- context [isinstance_MCPClientError ?y] =>
          destruct y; try discriminate K end.
        cbn. intros V X. injection V as <-. discriminate X.
  - cbn [fst]. destruct K as [K|K].
    + assert (J : isinstance_Exception e0 = true) by (destruct e0; try discriminate K; reflexivity).
      rewrite J. cbn. intros V _. injection V as <-. reflexivity.
    + rewrite K. cbn. intros V X. injection V as <-. congruence.
Qed.

Lemma project_status_errors_have_the_base_class_witness :
  class_name
    (MCPClientError
       "Failed to get project status for 'demo': Authentication failed for tool 'listTasks'"
       (Some (MCPAuthenticationError "Authentication failed for tool 'listTasks'"
                (Some (HTTPStatusError "Client error '401 Unauthorized'"
                         (status_response 401 "Client error '401 Unauthorized'"))))))
  = "MCPClientError".
Proof.
  exact (project_status_errors_have_the_base_class
           (always (status_response 401 "Client error '401 Unauthorized'"))
           (open test_config) "demo" _ eq_refl eq_refl).
Defined.

(** X10: once the tasks are listed, [get_project_status_via_mcp] returns
    whatever error the listing of the documentation runs into: the project
    is reported active, with the tasks as listed and, for the
    documentation, the listing or else the placeholder.  Two requests have
    gone out, the tasks first. *)
Theorem project_status_survives_the_documentation_listing
    (net : Transport) (w : World) (project_name : string) (tasks : json) :
  let w1 := sent w (tools_call_post w "listTasks" (status_tasks_arguments project_name)) in
  let listing := fst (call_tool net "listDocumentation" [("projectName", JStr project_name)] w1) in
  fst (call_tool net "listTasks" (status_tasks_arguments project_name) w) = Return tasks ->
  (forall s, listing <> Raise (Signal s)) ->
  get_project_status_via_mcp net project_name w
  = (Return (active_status project_name tasks (documentation_or_placeholder listing)),
     sent w1 (tools_call_post w1 "listDocumentation" [("projectName", JStr project_name)])).
Proof.
  intros w1 listing H NS. subst w1 listing.
  unfold get_project_status_via_mcp, try_except, bind.
  rewrite list_tasks_for_status.
  invoke net "listTasks" (status_tasks_arguments project_name) w; cbn in H; [|discriminate H].
  injection H as ->.
  match goal with |- context [call_tool net "listDocumentation" ?args ?w1] =>
    invoke net "listDocumentation" args w1 end; cbn in *.
  - reflexivity.
  - destruct K as [K|K].
    + rewrite K. reflexivity.
    + destruct e; try discriminate K.
      exfalso. eapply NS. reflexivity.
Qed.

Lemma project_status_survives_the_documentation_listing_witness :
  let net : Transport :=
    fun history _ =>
      match history with
      | [] => Responds (ok_response (JObj [("result", JObj [("content", JArr [])])]))
      | _ => Responds (status_response 404 "Client error '404 Not Found'")
      end in
  fst (get_project_status_via_mcp net "demo" (open test_config))
  = Return (active_status "demo" (JObj [("content", JArr [])]) documentation_not_available).
Proof.
  intros net.
  refine (f_equal fst
            (project_status_survives_the_documentation_listing net (open test_config) "demo"
               (JObj [("content", JArr [])]) eq_refl _)).
  intros s. discriminate.
Defined.

(** * The agent's tool [get_project_status] *)

(** X11: with dependencies for which the session can be made (a token
    within ASCII), the tool raises no error.  What leaves it as an
    exception is no instance of [Exception]; every failure of the client
    comes back as a returned dict.  (For another token the making of the
    session raises [UnicodeEncodeError], for which the tool has no
    clause.) *)
Theorem get_project_status_raises_no_error
    (net : Transport) (deps : ResearchAgentDependencies) (project_name : string)
    (w : World) (e : exn) :
  openable (mcp_config_of deps) = true ->
  fst (get_project_status net deps project_name w) = Raise e ->
  isinstance_Exception e = false.
Proof.
  intros _.
  unfold get_project_status, try_except, async_with_MCPClient, __aexit__, close, bind.
  fold (agent_session deps w).
  invoke net "listTasks" [("projectName", JStr project_name)] (agent_session deps w).
  - match goal with |- context [call_tool net "listDocumentation" ?args ?w1] =>
      invoke net "listDocumentation" args w1 end; cbn; discriminate.
  - cbn [fst snd ret]. destruct K as [K|K].
    + rewrite K. cbn. discriminate.
    + destruct e0; try discriminate K. cbn. intros V. injection V as <-. reflexivity.
Qed.

Lemma get_project_status_raises_no_error_witness :
  isinstance_Exception (Signal CancelledError) = false.
Proof.
  exact (get_project_status_raises_no_error
           (fun _ _ => Fails (Signal CancelledError))
           {| brave_api_key := "brave"; anthropic_api_key := "anthropic";
              mcp_server_url := "http://localhost:8787/mcp";
              deps_github_token := Some "test_token"; session_id := None |}
           "demo" (open test_config) _ eq_refl eq_refl).
Defined.

(** X12: when the listing of the tasks fails with an error, the tool
    returns a dict with the project name, the text of the error and the
    status [error].  One request has gone out, on a session made from the
    agent's dependencies, with [projectName] in the arguments whatever the
    name is. *)
Theorem get_project_status_reports_the_failure
    (net : Transport) (deps : ResearchAgentDependencies) (project_name : string)
    (w : World) (e : exn) :
  let w0 := agent_session deps w in
  let request := tools_call_post w0 "listTasks" [("projectName", JStr project_name)] in
  fst (call_tool net "listTasks" [("projectName", JStr project_name)] w0) = Raise e ->
  isinstance_Exception e = true ->
  fst (get_project_status net deps project_name w) = Return (error_status project_name e) /\
  outbox (snd (get_project_status net deps project_name w)) = (outbox w ++ [request])%list /\
  url request = mcp_server_url deps ++ "/tools/call" /\
  request_headers request = _get_headers (mcp_config_of deps).
Proof.
  intros w0 request H X. subst w0 request.
  unfold get_project_status, try_except, async_with_MCPClient, __aexit__, close, bind.
  fold (agent_session deps w).
  invoke net "listTasks" [("projectName", JStr project_name)] (agent_session deps w);
    cbn in H; [discriminate H|].
  injection H as ->. cbn [fst snd ret].
  destruct K as [K|K]; [|congruence].
  rewrite K. repeat split.
Qed.

Lemma get_project_status_reports_the_failure_witness :
  let deps := {| brave_api_key := "brave"; anthropic_api_key := "anthropic";
                 mcp_server_url := "http://localhost:8787/mcp";
                 deps_github_token := Some "test_token"; session_id := None |} in
  fst (get_project_status (fun _ _ => Fails (Error ConnectError "All connection attempts failed"))
         deps "" (open test_config))
  = Return (JObj [("project_name", JStr "");
                  ("error", JStr "Failed to call tool 'listTasks': All connection attempts failed");
                  ("status", JStr "error")]).
Proof.
  intros deps.
  exact (proj1 (get_project_status_reports_the_failure
                  (fun _ _ => Fails (Error ConnectError "All connection attempts failed"))
                  deps "" (open test_config) _ eq_refl eq_refl)).
Defined.

(** X13: when the tasks are listed, the tool returns the status [active],
    whatever the listing of the documentation does: any exception of that
    second call, a cancellation included, is replaced by the placeholder. *)
Theorem get_project_status_swallows_the_documentation_listing
    (net : Transport) (deps : ResearchAgentDependencies) (project_name : string)
    (w : World) (tasks : json) :
  let w0 := agent_session deps w in
  let w1 := sent w0 (tools_call_post w0 "listTasks" [("projectName", JStr project_name)]) in
  let listing := fst (call_tool net "listDocumentation" [("projectName", JStr project_name)] w1) in
  fst (call_tool net "listTasks" [("projectName", JStr project_name)] w0) = Return tasks ->
  fst (get_project_status net deps project_name w)
  = Return (active_status project_name tasks (documentation_or_placeholder listing)) /\
  length (outbox (snd (get_project_status net deps project_name w)))
  = (length (outbox w) + 2)%nat.
Proof.
  intros w0 w1 listing H. subst w0 w1 listing.
  unfold get_project_status, try_except, async_with_MCPClient, __aexit__, close, bind.
  fold (agent_session deps w).
  invoke net "listTasks" [("projectName", JStr project_name)] (agent_session deps w);
    cbn in H; [|discriminate H].
  injection H as ->.
  match goal with |- context [call_tool net "listDocumentation" ?args ?w1] =>
    invoke net "listDocumentation" args w1 end;
    cbn; rewrite !length_app; cbn; split; try reflexivity; lia.
Qed.

Lemma get_project_status_swallows_the_documentation_listing_witness :
  let deps := {| brave_api_key := "brave"; anthropic_api_key := "anthropic";
                 mcp_server_url := "http://localhost:8787/mcp";
                 deps_github_token := None; session_id := None |} in
  let net : Transport :=
    fun history _ =>
      match history with
      | [] => Responds (ok_response (JObj [("result", JObj [("content", JArr [])])]))
      | _ => Fails (Signal CancelledError)
      end in
  fst (get_project_status net deps "demo" (open test_config))
  = Return (active_status "demo" (JObj [("content", JArr [])]) documentation_not_available).
Proof.
  intros deps net.
  exact (proj1 (get_project_status_swallows_the_documentation_listing net deps "demo"
                  (open test_config) (JObj [("content", JArr [])]) eq_refl)).
Defined.

(** * The agent's reading of the server's text *)

(** ** Texts and their parts *)

Lemma prefix_app (m s : string) :
  prefix m s = true <-> exists rest, s = m ++ rest.
Proof.
  revert s. induction m as [|c m IH]; intros s.
  - split; [intros _; exists s; reflexivity | intros _; destruct s; reflexivity].
  - destruct s as [|d s]; cbn.
    + split; [discriminate | intros [rest H]; discriminate H].
    + destruct (ascii_dec c d) as [->|N].
      * rewrite IH. split; intros [rest H]; exists rest; [rewrite H; reflexivity|].
        injection H as ->. reflexivity.
      * split; [discriminate|]. intros [rest H]. injection H as <- _. contradiction.
Qed.

Lemma contains_nil (m : string) : contains m "" = prefix m "".
Proof. cbn. apply orb_false_r. Qed.

Lemma contains_cons (m : string) (c : ascii) (s : string) :
  contains m (String c s) = prefix m (String c s) || contains m s.
Proof. reflexivity. Qed.

Lemma contains_app (m s : string) :
  contains m s = true <-> exists before rest, s = before ++ m ++ rest.
Proof.
  induction s as [|c s IH].
  - rewrite contains_nil, prefix_app. split.
    + intros [rest H]. exists "", rest. exact H.
    + intros (before & rest & H). destruct before; cbn in H; [exists rest; exact H|discriminate H].
  - rewrite contains_cons, orb_true_iff, IH, prefix_app. split.
    + intros [[rest H] | (before & rest & H)].
      * exists "", rest. exact H.
      * exists (String c before), rest. cbn. rewrite H. reflexivity.
    + intros (before & rest & H). destruct before as [|d before]; cbn in H.
      * left. exists rest. exact H.
      * right. injection H as _ ->. exists before, rest. reflexivity.
Qed.

Lemma string_app_assoc (a b c : string) : (a ++ b) ++ c = a ++ b ++ c.
Proof. induction a as [|x a IH]; cbn; [reflexivity | rewrite IH; reflexivity]. Qed.

(** A text that lacks [m] has no part with [m] in it. *)
Lemma contains_part (m before part rest : string) :
  contains m (before ++ part ++ rest) = false -> contains m part = false.
Proof.
  intros H. destruct (contains m part) eqn:P; [|reflexivity].
  apply contains_app in P. destruct P as (a & b & ->).
  assert (K : contains m (before ++ (a ++ m ++ b) ++ rest) = true).
  { apply contains_app. exists (before ++ a), (b ++ rest).
    rewrite !string_app_assoc. reflexivity. }
  congruence.
Qed.

Lemma split_on_not_nil (sep : ascii) (s : string) : split_on sep s <> [].
Proof.
  induction s as [|c s IH]; cbn; [discriminate|].
  destruct (Ascii.eqb c sep); [discriminate|].
  destruct (split_on sep s); [contradiction | discriminate].
Qed.

(** Splitting and joining again gives the text back. *)
Lemma join_split_on (sep : ascii) (s : string) :
  join (String sep "") (split_on sep s) = s.
Proof.
  induction s as [|c s IH]; [reflexivity|].
  cbn [split_on].
  destruct (split_on sep s) as [|first others] eqn:S;
    [exfalso; exact (split_on_not_nil sep s S)|].
  destruct (Ascii.eqb_spec c sep) as [->|N].
  - change (join (String sep "") ("" :: first :: others))
      with (String sep (join (String sep "") (first :: others))).
    rewrite IH. reflexivity.
  - destruct others as [|second others].
    + cbn in *. rewrite IH. reflexivity.
    + change (join (String sep "") (String c first :: second :: others))
        with (String c (join (String sep "") (first :: second :: others))).
      rewrite IH. reflexivity.
Qed.

Lemma join_part (sep : string) (pieces : list string) (piece : string) :
  In piece pieces -> exists before rest, join sep pieces = before ++ piece ++ rest.
Proof.
  induction pieces as [|p others IH]; [intros []|].
  intros [->|H].
  - destruct others.
    + exists "", "". cbn. clear. induction piece; cbn; congruence.
    + exists "", (sep ++ join sep (s :: others)). reflexivity.
  - destruct (IH H) as (before & rest & E).
    destruct others as [|q others]; [destruct H|].
    exists (p ++ sep ++ before), rest.
    change (join sep (p :: q :: others)) with (p ++ sep ++ join sep (q :: others)).
    rewrite E, !string_app_assoc. reflexivity.
Qed.

(** Every piece of a split is a part of the text. *)
Lemma split_on_part (sep : ascii) (s piece : string) :
  In piece (split_on sep s) -> exists before rest, s = before ++ piece ++ rest.
Proof.
  intros H. destruct (join_part (String sep "") _ _ H) as (before & rest & E).
  rewrite join_split_on in E. eauto.
Qed.

(** The loop leaves a counter alone on the lines that lack its marker. *)
Lemma scan_lines_without (marker : string) (project : counters -> Z) (lines : list string) :
  (forall found line,
      contains marker line = false -> project (scan_line found line) = project found) ->
  Forall (fun line => contains marker line = false) lines ->
  forall found, project (fold_left scan_line lines found) = project found.
Proof.
  intros Hstep. induction 1 as [|line rest Hl _ IH]; intros found; [reflexivity|].
  cbn. rewrite IH. apply Hstep. exact Hl.
Qed.

Lemma lines_without (marker text : string) :
  contains marker text = false ->
  Forall (fun line => contains marker line = false) (split_on newline text).
Proof.
  intros H. apply Forall_forall. intros line Hin.
  destruct (split_on_part _ _ _ Hin) as (before & rest & E).
  rewrite E in H. exact (contains_part _ _ _ _ H).
Qed.

(** X14: a counter is zero when its marker is nowhere in the text.  A
    reply in another wording gives three zeros, not an error. *)
Theorem counters_are_zero_without_markers (text : string) :
  (contains "Total Tasks Extracted:" text = false ->
   tasks_created (scan_text text) = 0) /\
  (contains "Documentation Sections:" text = false ->
   documentation_created (scan_text text) = 0) /\
  (contains "Estimated Total Hours:" text = false ->
   estimated_hours (scan_text text) = 0).
Proof.
  unfold scan_text. repeat split; intros H.
  - rewrite (scan_lines_without "Total Tasks Extracted:" tasks_created);
      [reflexivity | | apply lines_without; exact H].
    intros found line L. unfold scan_line. rewrite L.
    destruct (contains "Documentation Sections:" line); [reflexivity|].
    destruct (contains "Estimated Total Hours:" line); reflexivity.
  - rewrite (scan_lines_without "Documentation Sections:" documentation_created);
      [reflexivity | | apply lines_without; exact H].
    intros found line L. unfold scan_line. rewrite L.
    destruct (contains "Total Tasks Extracted:" line); [reflexivity|].
    destruct (contains "Estimated Total Hours:" line); reflexivity.
  - rewrite (scan_lines_without "Estimated Total Hours:" estimated_hours);
      [reflexivity | | apply lines_without; exact H].
    intros found line L. unfold scan_line. rewrite L.
    destruct (contains "Total Tasks Extracted:" line); [reflexivity|].
    destruct (contains "Documentation Sections:" line); reflexivity.
Qed.

Lemma counters_are_zero_without_markers_witness :
  tasks_created (scan_text "3 tasks and 2 documents were created") = 0 /\
  estimated_hours (scan_text "Estimated total hours: 40") = 0.
Proof.
  split.
  - exact (proj1 (counters_are_zero_without_markers "3 tasks and 2 documents were created")
             eq_refl).
  - exact (proj2 (proj2 (counters_are_zero_without_markers "Estimated total hours: 40"))
             eq_refl).
Defined.

Lemma has_char_app (c : ascii) (a b : string) :
  has_char c (a ++ b) = has_char c a || has_char c b.
Proof.
  induction a as [|d a IH]; [reflexivity|].
  cbn. rewrite IH, orb_assoc. reflexivity.
Qed.

Lemma split_on_whole (sep : ascii) (s : string) :
  has_char sep s = false -> split_on sep s = [s].
Proof.
  induction s as [|c s IH]; [reflexivity|].
  cbn. intros H. apply orb_false_iff in H. destruct H as [C H].
  rewrite C, (IH H). reflexivity.
Qed.

Lemma split_on_app (sep : ascii) (a b : string) :
  split_on sep (a ++ String sep b) = (split_on sep a ++ split_on sep b)%list.
Proof.
  induction a as [|c a IH]; cbn.
  - rewrite Ascii.eqb_refl. reflexivity.
  - rewrite IH. destruct (Ascii.eqb c sep); [reflexivity|].
    destruct (split_on sep a) as [|first others] eqn:S;
      [exfalso; exact (split_on_not_nil sep a S)|].
    reflexivity.
Qed.

(** A line added at the end is one more turn of the loop. *)
Lemma scan_text_app_line (text line : string) :
  has_char newline line = false ->
  scan_text (text ++ String newline line) = scan_line (scan_text text) line.
Proof.
  intros H. unfold scan_text.
  rewrite split_on_app, fold_left_app, (split_on_whole _ _ H). reflexivity.
Qed.

(** The number of a line is read from what follows its last colon. *)
Lemma read_number_after_colon (before tail : string) (x : Z) :
  has_char colon tail = false ->
  read_number (before ++ String colon tail) x
  = match py_int (strip tail) with Some n => n | None => x end.
Proof.
  intros H. unfold read_number.
  rewrite split_on_app, (split_on_whole _ _ H), last_last. reflexivity.
Qed.

(** X15: the last line decides, for a text within ASCII.  When the text
    ends in a line with [Total Tasks Extracted:] and, after it, no further
    colon, the task counter is the integer that follows, whatever the lines
    before said, and is what it was when no integer follows; the other two
    counters are left alone even if their markers stand in the same
    line. *)
Theorem last_tasks_line_decides (text before tail : string) :
  is_ascii text = true ->
  is_ascii before = true ->
  is_ascii tail = true ->
  has_char newline before = false ->
  has_char newline tail = false ->
  has_char colon tail = false ->
  let earlier := scan_text text in
  let found := scan_text (text ++ String newline (before ++ "Total Tasks Extracted:" ++ tail)) in
  tasks_created found
  = match py_int (strip tail) with Some n => n | None => tasks_created earlier end /\
  documentation_created found = documentation_created earlier /\
  estimated_hours found = estimated_hours earlier.
Proof.
  intros _ _ _ Hb Ht Hc earlier found. subst earlier found.
  rewrite scan_text_app_line.
  2:{ rewrite !has_char_app, Hb, Ht. reflexivity. }
  unfold scan_line.
  assert (L : contains "Total Tasks Extracted:" (before ++ "Total Tasks Extracted:" ++ tail) = true)
    by (apply contains_app; eauto).
  rewrite L. cbn [tasks_created documentation_created estimated_hours].
  repeat split.
  change (before ++ "Total Tasks Extracted:" ++ tail)
    with (before ++ "Total Tasks Extracted" ++ String colon tail).
  rewrite <- string_app_assoc. apply read_number_after_colon. exact Hc.
Qed.

Lemma last_tasks_line_decides_witness :
  tasks_created
    (scan_text ("Total Tasks Extracted: 3"
                ++ String newline "- Total Tasks Extracted: 12 ")) = 12.
Proof.
  exact (proj1 (last_tasks_line_decides "Total Tasks Extracted: 3" "- " " 12 "
                  eq_refl eq_refl eq_refl eq_refl eq_refl eq_refl)).
Defined.

(** X16: the markers are tried in order, for a text within ASCII.  A last
    line with [Estimated Total Hours:] sets the hours, and only them,
    provided the two markers tried before it are not in that line. *)
Theorem last_hours_line_decides (text before tail : string) :
  let line := before ++ "Estimated Total Hours:" ++ tail in
  is_ascii text = true ->
  is_ascii before = true ->
  is_ascii tail = true ->
  has_char newline before = false ->
  has_char newline tail = false ->
  has_char colon tail = false ->
  contains "Total Tasks Extracted:" line = false ->
  contains "Documentation Sections:" line = false ->
  let earlier := scan_text text in
  let found := scan_text (text ++ String newline line) in
  estimated_hours found
  = match py_int (strip tail) with Some n => n | None => estimated_hours earlier end /\
  tasks_created found = tasks_created earlier /\
  documentation_created found = documentation_created earlier.
Proof.
  intros line _ _ _ Hb Ht Hc N1 N2 earlier found. subst earlier found.
  rewrite scan_text_app_line.
  2:{ subst line. rewrite !has_char_app, Hb, Ht. reflexivity. }
  unfold scan_line. rewrite N1, N2.
  assert (L : contains "Estimated Total Hours:" line = true)
    by (apply contains_app; subst line; eauto).
  rewrite L. cbn [tasks_created documentation_created estimated_hours].
  repeat split. subst line.
  change (before ++ "Estimated Total Hours:" ++ tail)
    with (before ++ "Estimated Total Hours" ++ String colon tail).
  rewrite <- string_app_assoc. apply read_number_after_colon. exact Hc.
Qed.

Lemma last_hours_line_decides_witness :
  estimated_hours
    (scan_text ("Documentation Sections: 4"
                ++ String newline "Estimated Total Hours: 1_000 hours")) = 0 /\
  estimated_hours
    (scan_text ("Documentation Sections: 4"
                ++ String newline "Estimated Total Hours: -8")) = -8.
Proof.
  split.
  - exact (proj1 (last_hours_line_decides "Documentation Sections: 4" "" " 1_000 hours"
                    eq_refl eq_refl eq_refl eq_refl eq_refl eq_refl eq_refl eq_refl)).
  - exact (proj1 (last_hours_line_decides "Documentation Sections: 4" "" " -8"
                    eq_refl eq_refl eq_refl eq_refl eq_refl eq_refl eq_refl eq_refl)).
Defined.

(** * The agent's tool [parse_prp_and_create_project] *)

Lemma parse_prp_for_project (net : Transport) (prp_content project_name : string) (w : World) :
  parse_prp_via_mcp net prp_content (Some project_name) None w
  = call_tool net "parsePRP" (parse_arguments prp_content project_name) w.
Proof. destruct project_name; reflexivity. Qed.

Ltac report :=
  solve [ eexists; split; [reflexivity|]; cbn;
          first [ left; split; reflexivity
                | right; split; [reflexivity | eexists; reflexivity] ] ].

Lemma parse_prp_and_create_project_outcome
    (net : Transport) (deps : ResearchAgentDependencies)
    (prp_content project_name : string) (w : World) :
  match fst (parse_prp_and_create_project net deps prp_content project_name w) with
  | Return v => is_report project_name v
  | Raise e => isinstance_Exception e = false
  end.
Proof.
  unfold parse_prp_and_create_project, try_except, async_with_MCPClient, __aexit__, close.
  fold (agent_session deps w). unfold bind at 1.
  rewrite parse_prp_for_project.
  invoke net "parsePRP" (parse_arguments prp_content project_name) (agent_session deps w).
  - unfold bind, first_if_truthy, _extract_project_data_from_mcp_response.
    match goal with parse_result : json |- _ => destruct parse_result end;
      cbn -[scan_text]; try report.
    + destruct (contains "content" s); cbn; report.
    + destruct (existsb _ items); cbn; report.
    + destruct (dict_get "content" fields) as [content|]; cbn -[scan_text]; [|report].
      destruct content; cbn -[scan_text]; try report.
      * destruct b; cbn; report.
      * destruct n; cbn; report.
      * destruct (_ || _); cbn; report.
      * destruct s; cbn; report.
      * destruct items as [|entry rest]; cbn -[scan_text]; [report|].
        destruct entry; cbn -[scan_text]; try report.
        destruct (dict_get "text" fields0) as [content_text|]; cbn -[scan_text]; [|report].
        destruct content_text; cbn -[scan_text]; report.
      * destruct fields0; cbn; report.
  - cbn [fst snd ret]. destruct K as [K|K].
    + rewrite K. cbn. report.
    + match goal with e : exn |- _ => destruct e; try discriminate K end. reflexivity.
Qed.

(** X17: the tool raises no error and always reports.  What it returns is
    a dict that either says [success] and names the project, or says no
    [success] and gives an [error] text; what leaves it as an exception is
    no instance of [Exception]. *)
Theorem parse_prp_and_create_project_always_reports
    (net : Transport) (deps : ResearchAgentDependencies)
    (prp_content project_name : string) (w : World) :
  (forall v,
      fst (parse_prp_and_create_project net deps prp_content project_name w) = Return v ->
      is_report project_name v) /\
  (forall e,
      fst (parse_prp_and_create_project net deps prp_content project_name w) = Raise e ->
      isinstance_Exception e = false).
Proof.
  pose proof (parse_prp_and_create_project_outcome net deps prp_content project_name w) as O.
  split; intros x H; rewrite H in O; exact O.
Qed.

Lemma parse_prp_and_create_project_always_reports_witness :
  let deps := {| brave_api_key := "brave"; anthropic_api_key := "anthropic";
                 mcp_server_url := "http://localhost:8787/mcp";
                 deps_github_token := None; session_id := None |} in
  is_report "demo"
    (JObj [("success", JBool false);
           ("error", JStr "Unexpected error: 'int' object has no attribute 'split'")]) /\
  isinstance_Exception (Signal KeyboardInterrupt) = false.
Proof.
  intros deps. split.
  - exact (proj1 (parse_prp_and_create_project_always_reports
                    (always (ok_response
                               (JObj [("result",
                                       JObj [("content", JArr [JObj [("text", JInt 3)]])])])))
                    deps "# PRP" "demo" (open test_config)) _ eq_refl).
  - exact (proj2 (parse_prp_and_create_project_always_reports
                    (fun _ _ => Fails (Signal KeyboardInterrupt))
                    deps "# PRP" "demo" (open test_config)) _ eq_refl).
Defined.

(** X18: when the invocation of [parsePRP] fails with an error, the tool
    returns no [success] and the text of the error after
    [MCP client error: ]; the one request went out on a session made from
    the agent's dependencies. *)
Theorem parse_prp_and_create_project_reports_the_client_error
    (net : Transport) (deps : ResearchAgentDependencies)
    (prp_content project_name : string) (w : World) (e : exn) :
  let w0 := agent_session deps w in
  let arguments := parse_arguments prp_content project_name in
  fst (call_tool net "parsePRP" arguments w0) = Raise e ->
  isinstance_Exception e = true ->
  parse_prp_and_create_project net deps prp_content project_name w
  = (Return (JObj [("success", JBool false);
                   ("error", JStr ("MCP client error: " ++ str e))]),
     sent w0 (tools_call_post w0 "parsePRP" arguments)).
Proof.
  intros w0 arguments H X. subst w0 arguments.
  unfold parse_prp_and_create_project, try_except, async_with_MCPClient, __aexit__, close.
  fold (agent_session deps w). unfold bind at 1.
  rewrite parse_prp_for_project.
  invoke net "parsePRP" (parse_arguments prp_content project_name) (agent_session deps w);
    cbn in H; [discriminate H|].
  injection H as ->. cbn [fst snd ret].
  destruct K as [K|K]; [|congruence].
  rewrite K. reflexivity.
Qed.

Lemma parse_prp_and_create_project_reports_the_client_error_witness :
  let deps := {| brave_api_key := "brave"; anthropic_api_key := "anthropic";
                 mcp_server_url := "http://localhost:8787/mcp";
                 deps_github_token := None; session_id := None |} in
  fst (parse_prp_and_create_project
         (always (status_response 404 "Client error '404 Not Found'"))
         deps "# PRP" "demo" (open test_config))
  = Return (JObj [("success", JBool false);
                  ("error", JStr "MCP client error: Tool 'parsePRP' not found on server")]).
Proof.
  intros deps.
  exact (f_equal fst
           (parse_prp_and_create_project_reports_the_client_error
              (always (status_response 404 "Client error '404 Not Found'"))
              deps "# PRP" "demo" (open test_config) _ eq_refl eq_refl)).
Defined.

(** X19: what the tool makes of a parsed result that is a dict.  Without a
    [content] key, or with a [content] that is false (an empty list, say),
    it returns no [success] and the text that no content came back.  With
    a [content] list whose first entry is a dict with a [text] within
    ASCII, it returns [success] with the parse result and the three
    counters read from that text; an entry without [text] counts as the
    empty text, so as three zeros. *)
Theorem parse_prp_and_create_project_reads_the_content
    (net : Transport) (deps : ResearchAgentDependencies)
    (prp_content project_name : string) (w : World) (fields : list (string * json)) :
  let w0 := agent_session deps w in
  let run := fst (parse_prp_and_create_project net deps prp_content project_name w) in
  fst (call_tool net "parsePRP" (parse_arguments prp_content project_name) w0)
  = Return (JObj fields) ->
  (dict_get "content" fields = None -> run = Return no_content) /\
  (forall content,
      dict_get "content" fields = Some content -> py_truthy content = false ->
      run = Return no_content) /\
  (forall entry rest text,
      dict_get "content" fields = Some (JArr (JObj entry :: rest)) ->
      match dict_get "text" entry with Some x => x | None => JStr "" end = JStr text ->
      is_ascii text = true ->
      run = Return (project_created project_name (JObj fields) (scan_text text))).
Proof.
  intros w0 run H. subst w0 run.
  split; [|split].
  - intros C.
    unfold parse_prp_and_create_project, try_except, async_with_MCPClient, __aexit__, close.
    fold (agent_session deps w). unfold bind at 1. rewrite parse_prp_for_project.
    invoke net "parsePRP" (parse_arguments prp_content project_name) (agent_session deps w);
      cbn in H; [|discriminate H].
    injection H as ->. unfold bind, first_if_truthy.
    cbn. rewrite C. reflexivity.
  - intros content C T.
    unfold parse_prp_and_create_project, try_except, async_with_MCPClient, __aexit__, close.
    fold (agent_session deps w). unfold bind at 1. rewrite parse_prp_for_project.
    invoke net "parsePRP" (parse_arguments prp_content project_name) (agent_session deps w);
      cbn in H; [|discriminate H].
    injection H as ->. unfold bind, first_if_truthy.
    cbn -[py_truthy]. rewrite C. cbn -[py_truthy]. rewrite T. reflexivity.
  - intros entry rest text C T _.
    unfold parse_prp_and_create_project, try_except, async_with_MCPClient, __aexit__, close.
    fold (agent_session deps w). unfold bind at 1. rewrite parse_prp_for_project.
    invoke net "parsePRP" (parse_arguments prp_content project_name) (agent_session deps w);
      cbn in H; [|discriminate H].
    injection H as ->.
    unfold bind, first_if_truthy, _extract_project_data_from_mcp_response.
    cbn -[scan_text]. rewrite C. cbn -[scan_text].
    destruct (dict_get "text" entry) as [x|]; cbn -[scan_text] in *.
    + subst x. reflexivity.
    + injection T as <-. reflexivity.
Qed.

Lemma parse_prp_and_create_project_reads_the_content_witness :
  let deps := {| brave_api_key := "brave"; anthropic_api_key := "anthropic";
                 mcp_server_url := "http://localhost:8787/mcp";
                 deps_github_token := None; session_id := None |} in
  let text := "Total Tasks Extracted: 5" ++ String newline "Documentation Sections: 2" in
  let result := [("content", JArr [JObj [("type", JStr "text"); ("text", JStr text)]])] in
  fst (parse_prp_and_create_project (always (ok_response (JObj [("result", JObj result)])))
         deps "# PRP" "demo" (open test_config))
  = Return (project_created "demo" (JObj result)
              {| tasks_created := 5; documentation_created := 2; estimated_hours := 0 |}).
Proof.
  intros deps text result.
  exact (proj2 (proj2 (parse_prp_and_create_project_reads_the_content
                         (always (ok_response (JObj [("result", JObj result)])))
                         deps "# PRP" "demo" (open test_config) result eq_refl))
           _ _ text eq_refl eq_refl eq_refl).
Defined.

(** * A session over its life *)

(** X20: no sequence of calls changes the configuration or the HTTP client
    of a session, and a sequence of invocations alone leaves the cached
    tool list as it was: invoking a tool neither consults nor fills the
    list. *)
Theorem session_is_kept_over_a_lifetime (net : Transport) (calls : list call) (w : World) :
  config (self (lifetime net calls w)) = config (self w) /\
  client (self (lifetime net calls w)) = client (self w) /\
  (forallb is_invocation calls = true ->
   _available_tools (self (lifetime net calls w)) = _available_tools (self w)).
Proof.
  revert w. induction calls as [|c rest IH]; intros w; [repeat split|].
  change (lifetime net (c :: rest) w) with (lifetime net rest (perform net c w)).
  destruct (IH (perform net c w)) as (Hc & Hh & Ht).
  destruct (perform_world net c w) as (Pc & Ph & _).
  split; [congruence|]. split; [congruence|].
  cbn [forallb]. intros F. apply andb_true_iff in F. destruct F as [Fc Fr].
  rewrite (Ht Fr). destruct c as [|tool_name arguments]; [discriminate Fc|].
  cbn [perform]. rewrite call_tool_world.
  destruct (printable (JObj arguments)); reflexivity.
Qed.

Lemma session_is_kept_over_a_lifetime_witness :
  _available_tools
    (self (lifetime (always (ok_response (JObj [("result", JObj [("tools", JArr [])])])))
             [Invoke "createTask" []; Invoke "listTasks" []] seasoned))
  = Some [JStr "listTasks"].
Proof.
  exact (proj2 (proj2 (session_is_kept_over_a_lifetime
                         (always (ok_response (JObj [("result", JObj [("tools", JArr [])])])))
                         [Invoke "createTask" []; Invoke "listTasks" []] seasoned))
           eq_refl).
Defined.
